(** * thumanya_cms: the discovery pipeline

    A shallow embedding of the event-driven indexing pipeline and of the
    search endpoint of the CMS:

    - [discovery/indexer/consumer.py]: the index schema manager
      ([create_index_if_not_exists]), the two handlers ([handle_upsert],
      [handle_delete]) and the dispatch loop of [run_consumer];
    - [discovery/management/commands/create_opensearch_index.py]: the
      operator command ([Command_handle]);
    - [discovery/views.py]: [SearchView.get].

    Python code that raises is embedded in a state-and-exception monad over
    a [world] that holds the search cluster, the requests sent to it, the
    log and the console.  The search engine, the message broker and Python's
    [int] are outside the repository: the engine is an in-memory store that
    follows the client's contract (a write overwrites by id, a delete of a
    missing document raises [NotFoundError]); what the engine decides on its
    own (which bodies a mapping accepts, whether a write, a delete, the
    creation of an index or a search fails, what a query matches) and [int]
    are fields of the [Platform] class. *)

From Stdlib Require Import ZArith Lia Ascii String.
From stdpp Require Import base gmap strings list fin_maps.

Local Open Scope string_scope.
Local Open Scope Z_scope.
#[local] Set Warnings "-register-all".

(** ** Python values *)

Inductive exn :=
| ValueError
| AttributeError
| KeyError
| ZeroDivisionError
| NotFoundError
| RequestError
| ConnectionError.

Inductive outcome (A : Type) :=
| Ok (a : A)
| Raise (e : exn).
Arguments Ok {A} a.
Arguments Raise {A} e.

(** Decoded JSON.  A number that is not an integer keeps its literal. *)
Inductive json :=
| JNull
| JBool (b : bool)
| JNum (n : Z)
| JReal (literal : string)
| JStr (s : string)
| JList (l : list json)
| JDict (kv : list (string * json)).

(** A document body: a Python dict with string keys. *)
Abbreviation document := (gmap string json).

(** [d.get(k)] with the default [None]. *)
Definition dict_get (d : document) (k : string) : json :=
  default JNull (d !! k).

(** ** Strings *)

Definition is_empty (s : string) : bool :=
  match s with EmptyString => true | String _ _ => false end.

(** Truthiness of an optional request parameter: [None] and [''] are
    false. *)
Definition truthy (v : option string) : bool :=
  match v with
  | Some s => negb (is_empty s)
  | None => false
  end.

(** [s.lower()], on the letters of ASCII: the code compares the result
    with ['true'] only, and no letter beyond ASCII is lowered to one of its
    letters. *)
Definition lower_ascii (a : ascii) : ascii :=
  let n := nat_of_ascii a in
  if (Nat.leb 65 n && Nat.leb n 90)%bool then ascii_of_nat (n + 32) else a.

Fixpoint lower (s : string) : string :=
  match s with
  | EmptyString => EmptyString
  | String a r => String (lower_ascii a) (lower r)
  end.

(** [s.split(sep)] for a one-character separator. *)
Fixpoint split_aux (sep : ascii) (cur : string) (s : string) : list string :=
  match s with
  | EmptyString => [String.rev cur]
  | String a r =>
      if Ascii.eqb a sep then String.rev cur :: split_aux sep EmptyString r
      else split_aux sep (String a cur) r
  end.

Definition split (sep : ascii) (s : string) : list string :=
  split_aux sep EmptyString s.

Definition is_whitespace (a : ascii) : bool :=
  let n := nat_of_ascii a in
  ((Nat.leb 9 n && Nat.leb n 13) || (Nat.leb 28 n && Nat.leb n 32))%bool.

(** The whitespace beyond ASCII, in the UTF-8 the strings are held in:
    U+0085 and U+00A0 on two bytes; U+1680, U+2000 to U+200A, U+2028,
    U+2029, U+202F, U+205F and U+3000 on three. *)
Definition wide_space2 (a b : ascii) : bool :=
  (Nat.eqb (nat_of_ascii a) 194
   && (Nat.eqb (nat_of_ascii b) 133 || Nat.eqb (nat_of_ascii b) 160))%bool.

Definition wide_space3 (a b c : ascii) : bool :=
  let x := nat_of_ascii a in
  let y := nat_of_ascii b in
  let z := nat_of_ascii c in
  ((Nat.eqb x 225 && Nat.eqb y 154 && Nat.eqb z 128)
   || (Nat.eqb x 226 && Nat.eqb y 128
       && ((Nat.leb 128 z && Nat.leb z 138) || Nat.eqb z 168 || Nat.eqb z 169
           || Nat.eqb z 175))
   || (Nat.eqb x 226 && Nat.eqb y 129 && Nat.eqb z 159)
   || (Nat.eqb x 227 && Nat.eqb y 128 && Nat.eqb z 128))%bool.

(** The string without the whitespace it starts with; with [backwards],
    for a string whose bytes are read from the last one. *)
Fixpoint strip_front (backwards : bool) (s : string) : string :=
  match s with
  | EmptyString => EmptyString
  | String a r =>
      if is_whitespace a then strip_front backwards r
      else
        match r with
        | EmptyString => s
        | String b r2 =>
            if (if backwards then wide_space2 b a else wide_space2 a b)
            then strip_front backwards r2
            else
              match r2 with
              | EmptyString => s
              | String c r3 =>
                  if (if backwards then wide_space3 c b a else wide_space3 a b c)
                  then strip_front backwards r3
                  else s
              end
        end
  end.

Definition lstrip (s : string) : string := strip_front false s.

Definition rstrip (s : string) : string :=
  String.rev (strip_front true (String.rev s)).

(** [s.strip()] *)
Definition strip (s : string) : string := rstrip (lstrip s).

(** ** The search request body built by the view *)

Inductive fuzziness := FuzzAuto | FuzzZero.

Record multi_match := MultiMatch {
  mm_query : string;
  mm_fields : list string;
  mm_type : string;
  mm_fuzziness : fuzziness;
  mm_operator : string
}.

(** Filter clauses: [{"term": {f: v}}], [{"range": {f: {gte, lte}}}] and
    [{"terms": {f: vs}}]. *)
Inductive clause :=
| Term (field value : string)
| Range (field : string) (gte lte : option string)
| Terms (field : string) (values : list string).

Record highlight_spec := HighlightSpec {
  hl_fields : list string;
  pre_tags : list string;
  post_tags : list string
}.

(** [{"terms": {"field": f}}], with the bucket count when given. *)
Record terms_agg := TermsAgg {
  agg_field : string;
  agg_size : option Z
}.

Record search_body := SearchBody {
  sb_must : list multi_match;
  sb_filter : list clause;
  sb_from : Z;
  sb_size : Z;
  sb_sort : list (string * string);
  sb_highlight : option highlight_spec;
  sb_aggs : list (string * terms_agg)
}.

(** The engine's reply to a search, with the optional keys the view reads
    through [.get]. *)
Record hit := Hit {
  hit_source : option document;
  hit_highlight : option json;
  hit_score : option json
}.

Record hits_total := HitsTotal { total_value : option Z }.

Record hits_obj := HitsObj {
  hits_hits : option (list hit);
  hits_total_obj : option hits_total
}.

Record search_response := SearchResponse {
  resp_hits : option hits_obj;
  resp_took : option json;
  resp_aggregations : option json
}.

(** ** The search cluster *)

(** An index: the body it was created with (mappings and settings), the
    documents stored under an id given by the writer, and the documents
    stored under an id the engine generated for a write without one. *)
Record index := Index {
  idx_body : json;
  idx_docs : gmap Z document;
  idx_auto : list document
}.

Definition new_index (body : json) : index :=
  {| idx_body := body; idx_docs := ∅; idx_auto := [] |}.

Definition put_doc (id : option Z) (body : document) (ix : index) : index :=
  match id with
  | Some i =>
      {| idx_body := idx_body ix;
         idx_docs := <[i := body]> (idx_docs ix);
         idx_auto := idx_auto ix |}
  | None =>
      {| idx_body := idx_body ix;
         idx_docs := idx_docs ix;
         idx_auto := idx_auto ix ++ [body] |}
  end.

Definition drop_doc (i : Z) (ix : index) : index :=
  {| idx_body := idx_body ix;
     idx_docs := delete i (idx_docs ix);
     idx_auto := idx_auto ix |}.

(** Requests that reach the engine. *)
Inductive request :=
| ReqExists (name : string)
| ReqCreate (name : string) (body : json)
| ReqDeleteIndex (name : string)
| ReqIndex (name : string) (id : option Z) (body : document)
| ReqDelete (name : string) (id : Z)
| ReqSearch (name : string) (body : search_body).

(** ** Messages on the topic *)

(** A decoded message: a JSON object with the keys the consumer reads, or
    any other JSON value. *)
Record event := Event {
  ev_op : option string;
  ev_program_id : option Z;
  ev_payload : option document
}.

(** What [json.loads] gives when the text is not an object. *)
Inductive non_object :=
| OfNull
| OfBool (b : bool)
| OfNum (n : Z)
| OfReal (literal : string)
| OfStr (s : string)
| OfList (l : list json).

Inductive message :=
| Dict (e : event)
| NotDict (v : non_object).

(** ** Log and console *)

Inductive level := INFO | WARNING | ERROR.

Inductive log_text :=
| CreatedIndex (name : string)
| IndexAlreadyExists (name : string)
| ErrorCreatingIndex (e : exn)
| IndexedProgram (id : option Z) (title : json)
| ErrorIndexingProgram (id : option Z) (e : exn)
| DeletedProgram (id : option Z)
| DeleteFailed (id : option Z) (e : exn)
| ReceivedMessage (m : message)
| UnknownOperation (op : option string)
| ErrorProcessingMessage (e : exn)
| ConsumerError (e : exn)
| SearchError (e : exn).

Inductive console_line :=
| Stderr_MappingFileNotFound
| Stdout_DeletingAndRecreating (name : string)
| Stdout_CreatedIndex (name : string).

(** ** The world and the monad *)

Record world := World {
  cluster : gmap string index;
  sent : list request;
  logged : list (level * log_text);
  console : list console_line;
  slept_ms : Z
}.

Definition with_cluster (c : gmap string index) (w : world) : world :=
  {| cluster := c; sent := sent w; logged := logged w;
     console := console w; slept_ms := slept_ms w |}.

Definition M (A : Type) : Type := world → outcome A * world.

#[global] Instance M_ret : MRet M := λ A a w, (Ok a, w).

#[global] Instance M_bind : MBind M := λ A B k m w,
  match m w with
  | (Ok a, w') => k a w'
  | (Raise e, w') => (Raise e, w')
  end.

Definition raise {A} (e : exn) : M A := λ w, (Raise e, w).

(** [try: body / except Exception as e: handler e]. *)
Definition try_except {A} (body : M A) (handler : exn → M A) : M A := λ w,
  match body w with
  | (Ok a, w') => (Ok a, w')
  | (Raise e, w') => handler e w'
  end.

(** [for x in xs: body x]; an exception leaves the loop. *)
Fixpoint for_each {A} (xs : list A) (body : A → M unit) : M unit :=
  match xs with
  | [] => mret tt
  | x :: rest => body x ;; for_each rest body
  end.

Definition read_cluster : M (gmap string index) := λ w, (Ok (cluster w), w).

Definition write_cluster (c : gmap string index) : M unit := λ w,
  (Ok tt, with_cluster c w).

Definition send (r : request) : M unit := λ w,
  (Ok tt, {| cluster := cluster w; sent := sent w ++ [r]; logged := logged w;
             console := console w; slept_ms := slept_ms w |}).

Definition LOG (l : level) (t : log_text) : M unit := λ w,
  (Ok tt, {| cluster := cluster w; sent := sent w;
             logged := logged w ++ [(l, t)];
             console := console w; slept_ms := slept_ms w |}).

Definition write_console (c : console_line) : M unit := λ w,
  (Ok tt, {| cluster := cluster w; sent := sent w; logged := logged w;
             console := console w ++ [c]; slept_ms := slept_ms w |}).

Definition sleep_ms (ms : Z) : M unit := λ w,
  (Ok tt, {| cluster := cluster w; sent := sent w; logged := logged w;
             console := console w; slept_ms := slept_ms w + ms |}).

(** ** What lies outside the repository *)

Class Platform := {
  (** [os.environ] *)
  environ : gmap string string;
  (** the attributes of Django's [settings] that the command reads *)
  settings : gmap string string;
  (** whether an index created with this body takes this document *)
  accepts : json → document → bool;
  (** the exception the delete of this document, stored under this id in an
      index of this body, ends with when the engine does not carry it out
      (a timeout, a lost connection, a conflict) *)
  delete_error : json → Z → document → option exn;
  (** the exception the creation of an index of this name and body ends
      with when the engine does not carry it out *)
  create_error : string → json → option exn;
  (** what the engine answers to a search on this cluster *)
  run_search : gmap string index → string → search_body → outcome search_response;
  (** Python's [int] on a string: [None] where it raises [ValueError] *)
  py_int : string → option Z
}.

Section Pipeline.
Context `{P : Platform}.

(** ** The search client *)

(** [client.indices.exists(index=name)] *)
Definition indices_exists (name : string) : M bool :=
  send (ReqExists name) ;;
  c ← read_cluster;
  mret (bool_decide (is_Some (c !! name))).

(** [client.indices.create(index=name, body=body)]: the engine refuses to
    create an index that exists; a creation the engine does not carry out
    raises and leaves the cluster as it was. *)
Definition indices_create (name : string) (body : json) : M unit :=
  send (ReqCreate name body) ;;
  c ← read_cluster;
  match c !! name with
  | Some _ => raise RequestError
  | None =>
      match create_error name body with
      | None => write_cluster (<[name := new_index body]> c)
      | Some e => raise e
      end
  end.

(** [client.indices.delete(index=name)] *)
Definition indices_delete (name : string) : M unit :=
  send (ReqDeleteIndex name) ;;
  c ← read_cluster;
  match c !! name with
  | Some _ => write_cluster (delete name c)
  | None => raise NotFoundError
  end.

(** [client.index(index=name, id=id, body=body, refresh=True)]: the
    document is stored under [id], replacing the one that was there, and is
    visible at once.  Without an id the engine stores it under one of its
    own.  An index that does not exist yet is created on the fly with an
    empty body.  A body the index does not accept is refused. *)
Definition client_index (name : string) (id : option Z) (body : document) : M unit :=
  send (ReqIndex name id body) ;;
  c ← read_cluster;
  let ix := default (new_index (JDict [])) (c !! name) in
  if accepts (idx_body ix) body
  then write_cluster (<[name := put_doc id body ix]> c)
  else raise RequestError.

(** [client.delete(index=name, id=id, refresh=True)]: the client refuses an
    empty id before anything is sent; the engine answers not-found for a
    missing index or document; a delete the engine does not carry out
    raises and leaves the document. *)
Definition client_delete (name : string) (id : option Z) : M unit :=
  match id with
  | None => raise ValueError
  | Some i =>
      send (ReqDelete name i) ;;
      c ← read_cluster;
      match c !! name with
      | None => raise NotFoundError
      | Some ix =>
          match idx_docs ix !! i with
          | None => raise NotFoundError
          | Some doc =>
              match delete_error (idx_body ix) i doc with
              | None => write_cluster (<[name := drop_doc i ix]> c)
              | Some e => raise e
              end
          end
      end
  end.

(** [client.search(index=name, body=body)] *)
Definition client_search (name : string) (body : search_body) : M search_response :=
  send (ReqSearch name body) ;;
  c ← read_cluster;
  match run_search c name body with
  | Ok r => mret r
  | Raise e => raise e
  end.

(** ** discovery/indexer/consumer.py *)

Definition INDEX_NAME : string :=
  default "programs" (environ !! "DISCOVERY_INDEX_NAME").

Definition keyword : json := JDict [("type", JStr "keyword")].
Definition date : json := JDict [("type", JStr "date")].
Definition text : json :=
  JDict [("type", JStr "text"); ("analyzer", JStr "standard")].

(** The body [create_index_if_not_exists] creates the index with. *)
Definition programs_index_body : json :=
  JDict [
    ("mappings", JDict [
      ("properties", JDict [
        ("id", JDict [("type", JStr "integer")]);
        ("title", text);
        ("description", text);
        ("category", keyword);
        ("language", keyword);
        ("duration", keyword);
        ("publish_date", date);
        ("media_type", keyword);
        ("media_url", keyword);
        ("thumbnail_url", keyword);
        ("metadata", JDict [("type", JStr "object")]);
        ("created_at", date);
        ("updated_at", date)])]);
    ("settings", JDict [
      ("number_of_shards", JNum 1);
      ("number_of_replicas", JNum 0)])].

Definition create_index_if_not_exists : M unit :=
  try_except
    (found ← indices_exists INDEX_NAME;
     if negb found then
       indices_create INDEX_NAME programs_index_body ;;
       LOG INFO (CreatedIndex INDEX_NAME)
     else
       LOG INFO (IndexAlreadyExists INDEX_NAME))
    (λ e, LOG ERROR (ErrorCreatingIndex e) ;; raise e).

Definition handle_upsert (doc_id : option Z) (payload : document) : M unit :=
  try_except
    (client_index INDEX_NAME doc_id payload ;;
     LOG INFO (IndexedProgram doc_id
                 (default (JStr "Unknown") (payload !! "title"))))
    (λ e, LOG ERROR (ErrorIndexingProgram doc_id e)).

Definition handle_delete (doc_id : option Z) : M unit :=
  try_except
    (client_delete INDEX_NAME doc_id ;;
     LOG INFO (DeletedProgram doc_id))
    (λ e, LOG WARNING (DeleteFailed doc_id e)).

Definition op_eq (op : option string) (tag : string) : bool :=
  match op with
  | Some s => String.eqb s tag
  | None => false
  end.

(** The body of [for message in consumer] in [run_consumer]. *)
Definition process_message (m : message) : M unit :=
  try_except
    (LOG INFO (ReceivedMessage m) ;;
     match m with
     | NotDict _ => raise AttributeError
     | Dict e =>
         let op := ev_op e in
         let program_id := ev_program_id e in
         let payload := default ∅ (ev_payload e) in
         if (op_eq op "upsert" || op_eq op "create" || op_eq op "update")%bool
         then handle_upsert program_id payload
         else if op_eq op "delete"
         then handle_delete program_id
         else LOG WARNING (UnknownOperation op)
     end)
    (λ e, LOG ERROR (ErrorProcessingMessage e)).

(** One pass of [for message in consumer]: the messages delivered until
    the iterator stops, either on the consumer timeout or on an error of
    the broker. *)
Inductive poll_end := Idle | Broken (e : exn).

Record poll := Poll {
  delivered : list message;
  ending : poll_end
}.

Definition consume (msgs : list message) : M unit :=
  for_each msgs process_message.

(** One turn of [while True] in [run_consumer]. *)
Definition consumer_turn (p : poll) : M unit :=
  try_except
    (consume (delivered p) ;;
     match ending p with
     | Idle => sleep_ms 500
     | Broken e => raise e
     end)
    (λ e, LOG ERROR (ConsumerError e) ;; sleep_ms 5000).

(** The loop of [run_consumer] on the first polls of the stream. *)
Definition consumer_loop (polls : list poll) : M unit :=
  for_each polls consumer_turn.

(** ** discovery/management/commands/create_opensearch_index.py *)

Definition COMMAND_INDEX_NAME : string :=
  default "programs" (settings !! "DISCOVERY_INDEX_NAME").

(** [opensearch/mapping_programs.json] as the command finds it. *)
Inductive mapping_file :=
| FileMissing
| FileNotJson
| FileJson (mapping : json).

(** [get_client] of the command: it raises when the host setting is not
    [host:port]. *)
Definition get_client : M unit :=
  let opensearch_host := default "opensearch:9200" (settings !! "OPENSEARCH_HOST") in
  match split ":" opensearch_host with
  | [_; port] =>
      match py_int port with
      | Some _ => mret tt
      | None => raise ValueError
      end
  | _ => raise ValueError
  end.

Definition Command_handle (file : mapping_file) : M unit :=
  match file with
  | FileMissing => write_console Stderr_MappingFileNotFound
  | FileNotJson => raise ValueError
  | FileJson mapping =>
      get_client ;;
      found ← indices_exists COMMAND_INDEX_NAME;
      (if (found : bool)
       then write_console (Stdout_DeletingAndRecreating COMMAND_INDEX_NAME) ;;
            indices_delete COMMAND_INDEX_NAME
       else mret tt : M unit) ;;
      indices_create COMMAND_INDEX_NAME mapping ;;
      write_console (Stdout_CreatedIndex COMMAND_INDEX_NAME)
  end.

(** ** discovery/views.py *)

(** The flat record built for one hit, in the order of its keys. *)
Abbreviation result := (list (string * json)).

Record filters_applied := FiltersApplied {
  fa_category : option string;
  fa_language : option string;
  fa_media_type : option string;
  fa_duration_min : option string;
  fa_duration_max : option string;
  fa_publish_date_from : option string;
  fa_publish_date_to : option string;
  fa_tags : option string;
  fa_sort_by : string;
  fa_sort_order : string
}.

Record page_data := PageData {
  pd_query : string;
  pd_total : Z;
  pd_page : Z;
  pd_page_size : Z;
  pd_total_pages : Z;
  pd_results : list result;
  pd_took : json;
  pd_aggregations : json;
  pd_filters_applied : filters_applied
}.

Inductive body :=
| ErrorBody (error : string) (details : option exn)
| PageBody (d : page_data).

Record Response := MkResponse {
  data : body;
  status : Z
}.

Definition HTTP_200_OK : Z := 200.
Definition HTTP_400_BAD_REQUEST : Z := 400.
Definition HTTP_500_INTERNAL_SERVER_ERROR : Z := 500.

(** [SearchView.get_opensearch_client]: building the client sends
    nothing; it raises when the host setting is not [host:port]. *)
Definition get_opensearch_client : M unit :=
  let opensearch_host := default "opensearch:9200" (environ !! "OPENSEARCH_HOST") in
  match split ":" opensearch_host with
  | [_; port] =>
      match py_int port with
      | Some _ => mret tt
      | None => raise ValueError
      end
  | _ => raise ValueError
  end.

(** [int(request.GET.get(name, dflt))] *)
Definition int_param (GET : gmap string string) (name : string) (dflt : Z) : M Z :=
  match GET !! name with
  | None => mret dflt
  | Some s =>
      match py_int s with
      | Some z => mret z
      | None => raise ValueError
      end
  end.

(** [a // b] *)
Definition floordiv (a b : Z) : M Z :=
  if (b =? 0)%Z then raise ZeroDivisionError else mret (a / b).

(** [request.GET.get(name, 'true').lower() == 'true'] *)
Definition flag_param (GET : gmap string string) (name : string) : bool :=
  String.eqb (lower (default "true" (GET !! name))) "true".

(** [if v: filter_queries.append({"term": {field: v}})] *)
Definition term_filter (field : string) (v : option string) : list clause :=
  match v with
  | Some s => if is_empty s then [] else [Term field s]
  | None => []
  end.

(** The bound of a range: set only when the parameter is given. *)
Definition bound (v : option string) : option string :=
  if truthy v then v else None.

Definition range_filter (field : string) (lo hi : option string) : list clause :=
  if (truthy lo || truthy hi)%bool
  then [Range field (bound lo) (bound hi)]
  else [].

Definition tags_filter (tags : option string) : list clause :=
  match tags with
  | Some s =>
      if is_empty s then []
      else [Terms "metadata.tags" (strip <$> split "," s)]
  | None => []
  end.

(** The list [filter_queries] of [SearchView.get], in the order of its
    appends. *)
Definition filter_queries (GET : gmap string string) : list clause :=
  term_filter "category" (GET !! "category") ++
  term_filter "language" (GET !! "language") ++
  term_filter "media_type" (GET !! "media_type") ++
  range_filter "duration" (GET !! "duration_min") (GET !! "duration_max") ++
  range_filter "publish_date" (GET !! "publish_date_from") (GET !! "publish_date_to") ++
  tags_filter (GET !! "tags").

Definition highlighting : highlight_spec :=
  {| hl_fields := ["title"; "description"; "metadata.tags"];
     pre_tags := ["<em>"];
     post_tags := ["</em>"] |}.

Definition facets : list (string * terms_agg) :=
  [("categories", TermsAgg "category" None);
   ("languages", TermsAgg "language" None);
   ("media_types", TermsAgg "media_type" None);
   ("duration_buckets", TermsAgg "duration" (Some 20))].

(** The dict [search_body] of [SearchView.get]. *)
Definition build_search_body (GET : gmap string string) (query : string)
    (page page_size : Z) : search_body :=
  let sort_by := default "_score" (GET !! "sort_by") in
  let sort_order := default "desc" (GET !! "sort_order") in
  let highlight := flag_param GET "highlight" in
  let fuzzy := flag_param GET "fuzzy" in
  let from_size := (page - 1) * page_size in
  {| sb_must :=
       [{| mm_query := query;
           mm_fields := ["title^3"; "description^2"; "metadata.tags^2"; "category"];
           mm_type := "best_fields";
           mm_fuzziness := if fuzzy then FuzzAuto else FuzzZero;
           mm_operator := "or" |}];
     sb_filter := filter_queries GET;
     sb_from := from_size;
     sb_size := page_size;
     sb_sort := [(sort_by, sort_order); ("created_at", "desc")];
     sb_highlight := if highlight then Some highlighting else None;
     sb_aggs := facets |}.

(** The record built for one hit; [hit['_source']] raises when the key
    is missing. *)
Definition reshape (h : hit) : M result :=
  match hit_source h with
  | None => raise KeyError
  | Some source =>
      mret [("id", dict_get source "id");
            ("title", dict_get source "title");
            ("description", dict_get source "description");
            ("category", dict_get source "category");
            ("language", dict_get source "language");
            ("duration", dict_get source "duration");
            ("publish_date", dict_get source "publish_date");
            ("media_type", dict_get source "media_type");
            ("media_url", dict_get source "media_url");
            ("thumbnail_url", dict_get source "thumbnail_url");
            ("metadata", dict_get source "metadata");
            ("created_at", dict_get source "created_at");
            ("updated_at", dict_get source "updated_at");
            ("score", default JNull (hit_score h));
            ("highlights", default (JDict []) (hit_highlight h))]
  end.

Fixpoint reshape_all (hits : list hit) : M (list result) :=
  match hits with
  | [] => mret []
  | h :: rest =>
      r ← reshape h;
      rs ← reshape_all rest;
      mret (r :: rs)
  end.

Definition response_hits (response : search_response) : list hit :=
  default [] (hits_hits (default (HitsObj None None) (resp_hits response))).

Definition response_total (response : search_response) : Z :=
  default 0
    (total_value
       (default (HitsTotal None)
          (hits_total_obj (default (HitsObj None None) (resp_hits response))))).

(** [SearchView.get], from the query parameters of the request. *)
Definition get (GET : gmap string string) : M Response :=
  let query := default "" (GET !! "q") in
  if is_empty query then
    mret {| data := ErrorBody "Query parameter 'q' is required" None;
            status := HTTP_400_BAD_REQUEST |}
  else
    try_except
      (get_opensearch_client ;;
       page ← int_param GET "page" 1;
       size ← int_param GET "page_size" 20;
       let page_size := Z.min size 100 in
       let search_body := build_search_body GET query page page_size in
       response ← client_search "programs" search_body;
       let hits := response_hits response in
       let total := response_total response in
       total_pages ← floordiv (total + page_size - 1) page_size;
       results ← reshape_all hits;
       mret {| data := PageBody
                 {| pd_query := query;
                    pd_total := total;
                    pd_page := page;
                    pd_page_size := page_size;
                    pd_total_pages := total_pages;
                    pd_results := results;
                    pd_took := default (JNum 0) (resp_took response);
                    pd_aggregations := default (JDict []) (resp_aggregations response);
                    pd_filters_applied :=
                      {| fa_category := GET !! "category";
                         fa_language := GET !! "language";
                         fa_media_type := GET !! "media_type";
                         fa_duration_min := GET !! "duration_min";
                         fa_duration_max := GET !! "duration_max";
                         fa_publish_date_from := GET !! "publish_date_from";
                         fa_publish_date_to := GET !! "publish_date_to";
                         fa_tags := GET !! "tags";
                         fa_sort_by := default "_score" (GET !! "sort_by");
                         fa_sort_order := default "desc" (GET !! "sort_order") |} |};
               status := HTTP_200_OK |})
      (λ e,
         LOG ERROR (SearchError e) ;;
         mret {| data := ErrorBody "Search failed" (Some e);
                 status := HTTP_500_INTERNAL_SERVER_ERROR |}).

End Pipeline.

(** ** Reading the results *)

(** The world a computation leaves, and whether it returned. *)
Definition exec {A} (m : M A) (w : world) : world := (m w).2.
Definition returns {A} (m : M A) (w : world) : Prop := ∃ a, (m w).1 = Ok a.

Section Reading.
Context `{P : Platform}.

(** The document found under id [i] in the consumer's index. *)
Definition stored (w : world) (i : Z) : option document :=
  ix ← cluster w !! INDEX_NAME; idx_docs ix !! i.

(** The documents of the consumer's index that are stored under no
    entity id. *)
Definition orphans (w : world) : list document :=
  default [] (idx_auto <$> cluster w !! INDEX_NAME).

(** The two operations of a ChangeEvent, and the one a message carries for
    entity [i], if any: an unknown tag, another id or a message that is not
    an object carries none. *)
Inductive operation := Upsert | Delete.

Definition operation_of (e : event) : option operation :=
  if (op_eq (ev_op e) "upsert" || op_eq (ev_op e) "create"
      || op_eq (ev_op e) "update")%bool then Some Upsert
  else if op_eq (ev_op e) "delete" then Some Delete
  else None.

Definition applies_to (i : Z) (m : message) : option operation :=
  match m with
  | Dict e => if decide (ev_program_id e = Some i) then operation_of e else None
  | NotDict _ => None
  end.

(** The operation of the last event for entity [i] in a stream. *)
Fixpoint last_applied (i : Z) (msgs : list message) : option operation :=
  match msgs with
  | [] => None
  | m :: rest =>
      match last_applied i rest with
      | Some k => Some k
      | None => applies_to i m
      end
  end.

(** What the two handlers and the dispatch do to the cluster. *)
Definition upsert_effect (id : option Z) (payload : document)
    (c : gmap string index) : gmap string index :=
  let ix := default (new_index (JDict [])) (c !! INDEX_NAME) in
  if accepts (idx_body ix) payload
  then <[INDEX_NAME := put_doc id payload ix]> c
  else c.

Definition delete_effect (id : option Z) (c : gmap string index) : gmap string index :=
  match id with
  | Some i =>
      match c !! INDEX_NAME with
      | Some ix =>
          match idx_docs ix !! i with
          | Some doc =>
              match delete_error (idx_body ix) i doc with
              | None => <[INDEX_NAME := drop_doc i ix]> c
              | Some _ => c
              end
          | None => c
          end
      | None => c
      end
  | None => c
  end.

Definition message_effect (m : message) (c : gmap string index) : gmap string index :=
  match m with
  | Dict e =>
      match operation_of e with
      | Some Upsert => upsert_effect (ev_program_id e) (default ∅ (ev_payload e)) c
      | Some Delete => delete_effect (ev_program_id e) c
      | None => c
      end
  | NotDict _ => c
  end.

Definition stream_effect (msgs : list message)
    (c : gmap string index) : gmap string index :=
  foldl (λ c m, message_effect m c) c msgs.

(** The messages of the polls, in the order of their delivery. *)
Definition stream (polls : list poll) : list message :=
  concat (delivered <$> polls).

End Reading.

(** An operation leaves an index that exists as it is: its body and its
    documents. *)
Definition leaves_existing_index (name : string) (op : M unit) : Prop :=
  ∀ (w : world) (ix : index),
    cluster w !! name = Some ix → cluster (exec op w) !! name = Some ix.

(** The operation the dispatch reads in a message. *)
Definition operation_of_message (m : message) : option operation :=
  match m with
  | Dict e => operation_of e
  | NotDict _ => None
  end.

(** The three spellings of an upsert on the topic. *)
Inductive upsert_tag := tag_upsert | tag_create | tag_update.

Definition tag_text (t : upsert_tag) : string :=
  match t with
  | tag_upsert => "upsert"
  | tag_create => "create"
  | tag_update => "update"
  end.

Definition upsert_message (t : upsert_tag) (id : Z) (payload : document) : message :=
  Dict {| ev_op := Some (tag_text t); ev_program_id := Some id;
          ev_payload := Some payload |}.

Definition delete_message (id : Z) : message :=
  Dict {| ev_op := Some "delete"; ev_program_id := Some id;
          ev_payload := Some ∅ |}.

(** How many [term] clauses on [field] a filter list holds. *)
Definition is_term_on (field : string) (c : clause) : bool :=
  match c with
  | Term f _ => String.eqb f field
  | _ => false
  end.

Definition term_count (field : string) (cs : list clause) : nat :=
  length (List.filter (is_term_on field) cs).

(** ** The start of the consumer *)

(** What [client.cluster.health()] gives at one attempt: a status, or an
    exception (the engine is not up, the reply has no status). *)
Inductive health_reply :=
| HealthStatus (status : string)
| HealthError (e : exn).

(** Why the start gave up. *)
Inductive boot_failure :=
| NotReadyAfter (max_retries : nat)
| SchemaManagerFailed (e : exn).

(** The lines logged before the loop of the consumer is entered. *)
Inductive boot_text :=
| StartingIndexer
| ConnectingToOpenSearch (host : string)
| ConnectingToKafka (bootstrap : string)
| ListeningToTopic (topic : string)
| WaitingForOpenSearch (host : string)
| OpenSearchReady (status : string)
| OpenSearchStarting (status : string)
| OpenSearchNotReady (attempt max_retries : nat) (e : exn)
| RetryingIn (seconds : Z)
| FailedToConnect (why : boot_failure)
| WaitingForKafka
| ConsumerCreated
| StartingToListen.

(** What the start does, in order: a line logged, a health request sent, a
    sleep. *)
Inductive boot_step :=
| BootLog (l : level) (t : boot_text)
| BootHealth
| BootSleep (seconds : Z).

(** [wait_for_opensearch] either returns the client or raises. *)
Inductive wait_outcome := ClientReady | NeverReady.

(** How [run_consumer] stands after the polls it was given. *)
Inductive run_status :=
| Exit (code : Z)
| Uncaught (e : exn)
| StillConsuming.

Definition slept (steps : list boot_step) : Z :=
  foldr (λ st acc, match st with BootSleep d => d + acc | _ => acc end) 0 steps.

Definition health_requests (steps : list boot_step) : nat :=
  length (List.filter (λ st, match st with BootHealth => true | _ => false end) steps).

Section Startup.
Context `{P : Platform}.

Definition OPENSEARCH_HOST : string :=
  default "opensearch:9200" (environ !! "OPENSEARCH_HOST").

Definition KAFKA_BOOTSTRAP : string :=
  default "kafka:9092" (environ !! "KAFKA_BOOTSTRAP").

Definition TOPIC : string :=
  default "programs.events" (environ !! "KAFKA_TOPIC").

(** [get_opensearch_client] of the consumer: building the client sends
    nothing; it raises when the host is not [host:port]. *)
Definition indexer_client : outcome unit :=
  match split ":" OPENSEARCH_HOST with
  | [_; port] =>
      match py_int port with
      | Some _ => Ok tt
      | None => Raise ValueError
      end
  | _ => Raise ValueError
  end.

(** [health['status'] in ['green', 'yellow']] *)
Definition serving (status : string) : bool :=
  (String.eqb status "green" || String.eqb status "yellow")%bool.

(** The [try] of one attempt of [wait_for_opensearch]: whether it returned
    the client, and what it did. *)
Definition attempt_once (max_retries attempt : nat) (reply : health_reply)
    : bool * list boot_step :=
  match indexer_client with
  | Raise e =>
      (false, [BootLog INFO (OpenSearchNotReady (S attempt) max_retries e)])
  | Ok _ =>
      match reply with
      | HealthStatus status =>
          if serving status
          then (true, [BootHealth; BootLog INFO (OpenSearchReady status)])
          else (false, [BootHealth; BootLog INFO (OpenSearchStarting status)])
      | HealthError e =>
          (false, [BootHealth;
                   BootLog INFO (OpenSearchNotReady (S attempt) max_retries e)])
      end
  end.

(** Whether a reply lets an attempt return the client. *)
Definition ready_reply (reply : health_reply) : bool :=
  match reply with
  | HealthStatus status => serving status
  | HealthError _ => false
  end.

Definition attempt_ready (reply : health_reply) : bool :=
  match indexer_client with
  | Ok _ => ready_reply reply
  | Raise _ => false
  end.

(** [for attempt in range(max_retries)], from [attempt] on, with
    [remaining] attempts left. *)
Fixpoint wait_from (max_retries : nat) (retry_delay : Z)
    (health : nat → health_reply) (remaining attempt : nat)
    : wait_outcome * list boot_step :=
  match remaining with
  | O => (NeverReady, [])
  | S r =>
      let (ready, steps) := attempt_once max_retries attempt (health attempt) in
      if ready then (ClientReady, steps)
      else
        let pause :=
          if (attempt <? max_retries - 1)%nat
          then [BootLog INFO (RetryingIn retry_delay); BootSleep retry_delay]
          else [] in
        let (res, rest) := wait_from max_retries retry_delay health r (S attempt) in
        (res, (steps ++ pause ++ rest)%list)
  end.

(** [wait_for_opensearch(max_retries, retry_delay)], with the reply the
    engine gives to the health request of each attempt. *)
Definition wait_for_opensearch (max_retries : nat) (retry_delay : Z)
    (health : nat → health_reply) : wait_outcome * list boot_step :=
  let (res, steps) := wait_from max_retries retry_delay health max_retries 0 in
  (res, BootLog INFO (WaitingForOpenSearch OPENSEARCH_HOST) :: steps).

(** [run_consumer], with the health replies of the engine, what building
    the [KafkaConsumer] does and the polls the loop goes through. The lines
    logged and the sleeps before the loop are kept in the steps of the
    start; the schema manager and the loop act on the world. *)
Definition run_consumer (health : nat → health_reply) (kafka : outcome unit)
    (polls : list poll) (w : world) : run_status * list boot_step * world :=
  let banner :=
    [BootLog INFO StartingIndexer;
     BootLog INFO (ConnectingToOpenSearch OPENSEARCH_HOST);
     BootLog INFO (ConnectingToKafka KAFKA_BOOTSTRAP);
     BootLog INFO (ListeningToTopic TOPIC)] in
  let (waited, steps) := wait_for_opensearch 60 5 health in
  match waited with
  | NeverReady =>
      (Exit 1,
       (banner ++ steps ++ [BootLog ERROR (FailedToConnect (NotReadyAfter 60))])%list,
       w)
  | ClientReady =>
      match create_index_if_not_exists w with
      | (Raise e, w1) =>
          (Exit 1,
           (banner ++ steps ++ [BootLog ERROR (FailedToConnect (SchemaManagerFailed e))])%list,
           w1)
      | (Ok _, w1) =>
          let kafka_wait := [BootLog INFO WaitingForKafka; BootSleep 15] in
          match kafka with
          | Raise e => (Uncaught e, (banner ++ steps ++ kafka_wait)%list, w1)
          | Ok _ =>
              let entered :=
                [BootLog INFO ConsumerCreated; BootLog INFO StartingToListen] in
              match consumer_loop polls w1 with
              | (Ok _, w2) =>
                  (StillConsuming, (banner ++ steps ++ kafka_wait ++ entered)%list, w2)
              | (Raise e, w2) =>
                  (Uncaught e, (banner ++ steps ++ kafka_wait ++ entered)%list, w2)
              end
          end
      end
  end.

End Startup.

(** ** The consumer's index as the handlers see it *)

Section IndexView.
Context `{P : Platform}.

(** The body of the consumer's index; an index that is not there yet gets
    the empty body at its first write. *)
Definition index_body_of (c : gmap string index) : json :=
  idx_body (default (new_index (JDict [])) (c !! INDEX_NAME)).

Definition index_docs_of (c : gmap string index) : gmap Z document :=
  default ∅ (idx_docs <$> c !! INDEX_NAME).

Definition index_auto_of (c : gmap string index) : list document :=
  default [] (idx_auto <$> c !! INDEX_NAME).


(** Whether a message is an upsert that an index of body [b] takes. *)
Definition taken (b : json) (m : message) : bool :=
  match m with
  | Dict e =>
      match operation_of e with
      | Some Upsert => accepts b (default ∅ (ev_payload e))
      | _ => false
      end
  | NotDict _ => false
  end.

(** The engine carries out the deletes of the documents of entity [i] in
    an index of body [b]. *)
Definition deletes_carried_out (b : json) (i : Z) : Prop :=
  ∀ doc, delete_error b i doc = None.

(** What a delete leaves of the document of its entity. *)
Definition after_delete (b : json) (i : Z) (o : option document) : option document :=
  match o with
  | Some doc =>
      match delete_error b i doc with
      | None => None
      | Some _ => Some doc
      end
  | None => None
  end.

(** What a message does to the documents of an index of body [b]. *)
Definition doc_effect (b : json) (m : message)
    (d : gmap Z document) : gmap Z document :=
  match m with
  | Dict e =>
      match operation_of e, ev_program_id e with
      | Some Upsert, Some i =>
          if accepts b (default ∅ (ev_payload e))
          then <[i := default ∅ (ev_payload e)]> d
          else d
      | Some Delete, Some i => partial_alter (after_delete b i) i d
      | _, _ => d
      end
  | NotDict _ => d
  end.

(** What a message does to the document of entity [i]. *)
Definition key_effect (b : json) (i : Z) (m : message)
    (o : option document) : option document :=
  match m with
  | Dict e =>
      if decide (ev_program_id e = Some i) then
        match operation_of e with
        | Some Upsert =>
            if accepts b (default ∅ (ev_payload e))
            then Some (default ∅ (ev_payload e))
            else o
        | Some Delete => after_delete b i o
        | None => o
        end
      else o
  | NotDict _ => o
  end.

Definition key_run (b : json) (i : Z) (msgs : list message)
    (o : option document) : option document :=
  foldl (λ o m, key_effect b i m o) o msgs.

End IndexView.

(** ** cms/signals.py: what is put on the topic *)

(** A saved program as the publisher reads it: the name of its category if
    it has one, its duration through [str], its dates through
    [isoformat]. *)
Record Program := {
  p_id : Z;
  p_title : string;
  p_description : string;
  p_category : option string;
  p_language : string;
  p_duration : string;
  p_publish_date : string;
  p_media_type : string;
  p_media_url : string;
  p_thumbnail_url : option string;
  p_metadata : json;
  p_created_at : string;
  p_updated_at : string
}.

Definition optional (v : option string) : json :=
  match v with
  | Some s => JStr s
  | None => JNull
  end.

(** The dict under ["payload"] in [send_program_to_kafka]. *)
Definition program_payload (instance : Program) : list (string * json) :=
  [("id", JNum (p_id instance));
   ("title", JStr (p_title instance));
   ("description", JStr (p_description instance));
   ("category", optional (p_category instance));
   ("language", JStr (p_language instance));
   ("duration", JStr (p_duration instance));
   ("publish_date", JStr (p_publish_date instance));
   ("media_type", JStr (p_media_type instance));
   ("media_url", JStr (p_media_url instance));
   ("thumbnail_url", optional (p_thumbnail_url instance));
   ("metadata", p_metadata instance);
   ("created_at", JStr (p_created_at instance));
   ("updated_at", JStr (p_updated_at instance))].

(** [program_data] of [send_program_to_kafka]. *)
Definition program_data (instance : Program) (created : bool) : json :=
  JDict [("op", JStr (if created then "upsert" else "update"));
         ("program_id", JNum (p_id instance));
         ("payload", JDict (program_payload instance))].

(** [deletion_data] of [send_program_deletion_to_kafka]. *)
Definition deletion_data (instance : Program) : json :=
  JDict [("op", JStr "delete");
         ("program_id", JNum (p_id instance));
         ("payload", JDict [])].

(** The Kafka producer as the publisher finds it: it cannot be built, or
    it is there and [send] goes through or raises. *)
Inductive producer :=
| NoProducer (e : exn)
| Producer (send_error : option exn).

Inductive signal_text :=
| FailedToCreateProducer (e : exn)
| ProducerNotAvailable
| SentProgram (title : string) (id : Z)
| ErrorSendingProgram (e : exn)
| SentDeletion (id : Z)
| ErrorSendingDeletion (e : exn).

(** What a signal handler leaves: the values sent, each with its topic, and
    the lines logged. *)
Record published := Published {
  sent_events : list (string * json);
  signal_log : list (level * signal_text)
}.

(** [send_program_to_kafka(sender, instance, created)] *)
Definition send_program_to_kafka (k : producer) (instance : Program)
    (created : bool) : published :=
  match k with
  | NoProducer e =>
      {| sent_events := [];
         signal_log := [(ERROR, FailedToCreateProducer e);
                        (ERROR, ProducerNotAvailable)] |}
  | Producer (Some e) =>
      {| sent_events := [];
         signal_log := [(ERROR, ErrorSendingProgram e)] |}
  | Producer None =>
      {| sent_events := [("programs.events", program_data instance created)];
         signal_log := [(INFO, SentProgram (p_title instance) (p_id instance))] |}
  end.

(** [send_program_deletion_to_kafka(sender, instance)] *)
Definition send_program_deletion_to_kafka (k : producer) (instance : Program)
    : published :=
  match k with
  | NoProducer e =>
      {| sent_events := [];
         signal_log := [(ERROR, FailedToCreateProducer e);
                        (ERROR, ProducerNotAvailable)] |}
  | Producer (Some e) =>
      {| sent_events := [];
         signal_log := [(ERROR, ErrorSendingDeletion e)] |}
  | Producer None =>
      {| sent_events := [("programs.events", deletion_data instance)];
         signal_log := [(INFO, SentDeletion (p_id instance))] |}
  end.

(** [d.get(k)] on a decoded object: the last value given for the key. *)
Fixpoint object_get (k : string) (kv : list (string * json)) : option json :=
  match kv with
  | [] => None
  | (k', v) :: rest =>
      match object_get k rest with
      | Some v' => Some v'
      | None => if String.eqb k' k then Some v else None
      end
  end.

(** A decoded object as a dict. *)
Definition as_document (kv : list (string * json)) : document :=
  list_to_map (reverse kv).

(** The message the consumer reads from a value of the topic, for the
    values whose keys have the types of the topic contract: a string or
    nothing for the operation, an integer or nothing for the id, an object
    or no key for the payload. *)
Definition as_message (v : json) : option message :=
  match v with
  | JDict kv =>
      op ← match object_get "op" kv with
           | None | Some JNull => Some None
           | Some (JStr s) => Some (Some s)
           | Some _ => None
           end;
      id ← match object_get "program_id" kv with
           | None | Some JNull => Some None
           | Some (JNum n) => Some (Some n)
           | Some _ => None
           end;
      payload ← match object_get "payload" kv with
                | None => Some None
                | Some (JDict d) => Some (Some (as_document d))
                | Some _ => None
                end;
      Some (Dict {| ev_op := op; ev_program_id := id; ev_payload := payload |})
  | JNull => Some (NotDict OfNull)
  | JBool b => Some (NotDict (OfBool b))
  | JNum n => Some (NotDict (OfNum n))
  | JReal r => Some (NotDict (OfReal r))
  | JStr s => Some (NotDict (OfStr s))
  | JList l => Some (NotDict (OfList l))
  end.

(** ** A bench to run the code on *)

Definition digit (a : ascii) : option Z :=
  let n := nat_of_ascii a in
  if (Nat.leb 48 n && Nat.leb n 57)%bool then Some (Z.of_nat (n - 48)) else None.

Fixpoint digits (acc : Z) (s : string) : option Z :=
  match s with
  | EmptyString => Some acc
  | String a r =>
      match digit a with
      | Some d => digits (10 * acc + d) r
      | None => None
      end
  end.

(** Plain decimal numerals, a part of what [int] reads. *)
Definition dec_int (s : string) : option Z :=
  match s with
  | EmptyString => None
  | String "-" r => if is_empty r then None else Z.opp <$> digits 0 r
  | _ => digits 0 s
  end.

(** An engine that takes a document only when it has a title and that
    answers every search with 25 matches and no hit. *)
Definition bench_response : search_response :=
  {| resp_hits := Some {| hits_hits := Some [];
                          hits_total_obj := Some {| total_value := Some 25 |} |};
     resp_took := Some (JNum 5);
     resp_aggregations := None |}.

Definition bench : Platform :=
  {| environ := ∅;
     settings := ∅;
     accepts := λ _ d, bool_decide (is_Some (d !! "title"));
     delete_error := λ _ _ _, None;
     create_error := λ _ _, None;
     run_search := λ _ _ _, Ok bench_response;
     py_int := dec_int |}.

(** A bench whose engine cannot be reached by a delete. *)
Definition stuck_bench : Platform :=
  {| environ := ∅;
     settings := ∅;
     accepts := λ _ _, true;
     delete_error := λ _ _ _, Some ConnectionError;
     create_error := λ _ _, None;
     run_search := λ _ _ _, Ok bench_response;
     py_int := dec_int |}.

(** A bench whose engine creates no index. *)
Definition full_bench : Platform :=
  {| environ := ∅;
     settings := ∅;
     accepts := λ _ _, true;
     delete_error := λ _ _ _, None;
     create_error := λ _ _, Some RequestError;
     run_search := λ _ _ _, Ok bench_response;
     py_int := dec_int |}.

Definition empty_world : world :=
  {| cluster := ∅; sent := []; logged := []; console := []; slept_ms := 0 |}.

Definition coffee : document :=
  {[ "title" := JStr "Coffee journey" ]}.

(** A cluster that already holds the index, with one document. *)
Definition live_world : world :=
  {| cluster := {[ "programs" :=
                     {| idx_body := JDict [("mappings", JDict [])];
                        idx_docs := {[ 5 := coffee ]};
                        idx_auto := [] |} ]};
     sent := []; logged := []; console := []; slept_ms := 0 |}.

(** Requests to run the view on. *)
Definition paged_request : gmap string string :=
  {[ "q" := "coffee"; "page" := "2"; "page_size" := "10" ]}.

Definition filtered_request : gmap string string :=
  {[ "q" := "coffee"; "category" := "Technology"; "language" := "English" ]}.

Definition zero_size_request : gmap string string :=
  {[ "q" := "coffee"; "page_size" := "0" ]}.

Definition no_query_request : gmap string string :=
  {[ "page" := "2" ]}.

Definition unknown_event : event :=
  {| ev_op := Some "archive"; ev_program_id := Some 5; ev_payload := None |}.

(** The time a turn of the loop sleeps: half a second after an idle
    poll, five seconds after a failure of the broker. *)
Definition pause_ms (p : poll) : Z :=
  match ending p with
  | Idle => 500
  | Broken _ => 5000
  end.

Definition total_pause_ms (polls : list poll) : Z :=
  foldr (λ p acc, pause_ms p + acc) 0 polls.

(** A bench whose engine cannot be reached by a search, and one whose
    engine answers with a hit that has no [_source]. *)
Definition down_bench : Platform :=
  {| environ := ∅;
     settings := ∅;
     accepts := λ _ _, true;
     delete_error := λ _ _ _, None;
     create_error := λ _ _, None;
     run_search := λ _ _ _, Raise ConnectionError;
     py_int := dec_int |}.

Definition sourceless_response : search_response :=
  {| resp_hits :=
       Some {| hits_hits := Some [Hit (Some coffee) None (Some (JReal "1.0"));
                                  Hit None None None];
               hits_total_obj := Some {| total_value := Some 2 |} |};
     resp_took := None;
     resp_aggregations := None |}.

Definition sourceless_bench : Platform :=
  {| environ := ∅;
     settings := ∅;
     accepts := λ _ _, true;
     delete_error := λ _ _ _, None;
     create_error := λ _ _, None;
     run_search := λ _ _ _, Ok sourceless_response;
     py_int := dec_int |}.

Definition two_hits_response : search_response :=
  {| resp_hits :=
       Some {| hits_hits := Some [Hit (Some coffee) None (Some (JReal "1.0"));
                                  Hit (Some ∅) (Some (JDict [])) None];
               hits_total_obj := Some {| total_value := Some 2 |} |};
     resp_took := Some (JNum 3);
     resp_aggregations := None |}.

Definition two_hits_bench : Platform :=
  {| environ := ∅;
     settings := ∅;
     accepts := λ _ _, true;
     delete_error := λ _ _ _, None;
     create_error := λ _ _, None;
     run_search := λ _ _ _, Ok two_hits_response;
     py_int := dec_int |}.

Definition unchecked_request : gmap string string :=
  {[ "q" := "coffee"; "page" := "0"; "page_size" := "-5" ]}.

Definition ranged_request : gmap string string :=
  {[ "q" := "coffee"; "duration_min" := "0:10:00"; "tags" := " history , ,Yemen" ]}.

(** U+00A0 and U+3000 in UTF-8, and a request whose tags are set off by
    them. *)
Definition no_break_space : string :=
  String (ascii_of_nat 194) (String (ascii_of_nat 160) EmptyString).

Definition ideographic_space : string :=
  String (ascii_of_nat 227)
    (String (ascii_of_nat 128) (String (ascii_of_nat 128) EmptyString)).

Definition spaced_request : gmap string string :=
  {[ "q" := "coffee";
     "tags" := String.concat ""
                 [no_break_space; "history "; ","; ideographic_space; "Ye men";
                  no_break_space; " "] ]}.

(** The keys of the record built for a hit. *)
Definition result_keys : list string :=
  ["id"; "title"; "description"; "category"; "language"; "duration";
   "publish_date"; "media_type"; "media_url"; "thumbnail_url"; "metadata";
   "created_at"; "updated_at"; "score"; "highlights"].

(** How many times a character occurs in a string. *)
Fixpoint occurrences (a : ascii) (s : string) : nat :=
  match s with
  | EmptyString => 0%nat
  | String b r => ((if Ascii.eqb b a then 1 else 0) + occurrences a r)%nat
  end.

(** A program to publish. *)
Definition coffee_program : Program :=
  {| p_id := 6;
     p_title := "Coffee journey";
     p_description := "From Yemen to the world";
     p_category := None;
     p_language := "Arabic";
     p_duration := "0:45:00";
     p_publish_date := "2023-10-12";
     p_media_type := "documentary";
     p_media_url := "https://example.org/coffee";
     p_thumbnail_url := None;
     p_metadata := JDict [("tags", JList [JStr "coffee"; JStr "history"])];
     p_created_at := "2023-10-12T08:00:00";
     p_updated_at := "2023-10-12T08:00:00" |}.

(** The program whose document [live_world] holds under 5. *)
Definition deleted_program : Program :=
  {| p_id := 5;
     p_title := "Coffee journey";
     p_description := "";
     p_category := None;
     p_language := "Arabic";
     p_duration := "0:45:00";
     p_publish_date := "2023-10-12";
     p_media_type := "documentary";
     p_media_url := "https://example.org/coffee";
     p_thumbnail_url := None;
     p_metadata := JDict [];
     p_created_at := "2023-10-12T08:00:00";
     p_updated_at := "2023-10-12T08:00:00" |}.

(** Engines that come up at the fourth health request, and never. *)
Definition up_at_fourth (attempt : nat) : health_reply :=
  match attempt with
  | 0%nat => HealthError ConnectionError
  | 1%nat => HealthStatus "red"
  | 2%nat => HealthError KeyError
  | _ => HealthStatus "yellow"
  end.

Definition always_red (attempt : nat) : health_reply :=
  HealthStatus "red".

(** Inputs for the consumer. *)
Definition tea : document :=
  {[ "title" := JStr "Tea road" ]}.

Definition untitled : document :=
  {[ "description" := JStr "no title" ]}.

Definition update_5_tea : event :=
  {| ev_op := Some "update"; ev_program_id := Some 5; ev_payload := Some tea |}.

Definition create_9_untitled : event :=
  {| ev_op := Some "create"; ev_program_id := Some 9; ev_payload := Some untitled |}.

Definition delete_5 : event :=
  {| ev_op := Some "delete"; ev_program_id := Some 5; ev_payload := Some ∅ |}.

Definition sample_batch : list message :=
  [upsert_message tag_upsert 6 coffee; Dict delete_5; Dict update_5_tea;
   Dict unknown_event; delete_message 6].

(** * Properties *)

Ltac run :=
  unfold exec, returns, mbind, M_bind, mret, M_ret, try_except, raise, send,
    LOG, write_console, sleep_ms, read_cluster, write_cluster, with_cluster in *;
  simpl in *.

Section IndexViewFacts.
Context `{P : Platform}.

Lemma message_effect_other name m c :
  name ≠ INDEX_NAME → message_effect m c !! name = c !! name.
Proof.
  intros Hne. unfold message_effect, upsert_effect, delete_effect.
  destruct m as [e|v]; [|done].
  destruct (operation_of e) as [[]|]; [| |done].
  - destruct (accepts _ _); [|done]. by rewrite lookup_insert_ne.
  - destruct (ev_program_id e) as [i|]; [|done].
    destruct (c !! INDEX_NAME) as [ix|]; [|done].
    destruct (idx_docs ix !! i) as [doc|]; [|done].
    destruct (delete_error _ _ _); [done|]. by rewrite lookup_insert_ne.
Qed.

Lemma message_effect_body m c :
  index_body_of (message_effect m c) = index_body_of c.
Proof.
  unfold index_body_of, message_effect, upsert_effect, delete_effect.
  destruct m as [e|v]; [|done].
  destruct (operation_of e) as [[]|]; [| |done].
  - destruct (accepts _ _); [|done]. rewrite lookup_insert_eq. simpl.
    by destruct (ev_program_id e).
  - destruct (ev_program_id e) as [i|]; [|done].
    destruct (c !! INDEX_NAME) as [ix|] eqn:Hix; [|by rewrite Hix].
    destruct (idx_docs ix !! i) as [doc|]; [|by rewrite Hix].
    destruct (delete_error _ _ _); [by rewrite Hix|].
    by rewrite lookup_insert_eq.
Qed.

Lemma after_delete_lookup b i (d : gmap Z document) j :
  partial_alter (after_delete b i) i d !! j
  = if decide (i = j) then after_delete b i (d !! i) else d !! j.
Proof. apply lookup_partial_alter. Qed.

Lemma message_effect_docs m c :
  index_docs_of (message_effect m c)
  = doc_effect (index_body_of c) m (index_docs_of c).
Proof.
  unfold index_docs_of, index_body_of, doc_effect, message_effect,
    upsert_effect, delete_effect.
  destruct m as [e|v]; [|done].
  destruct (operation_of e) as [[]|]; [| |done].
  - destruct (accepts _ _) eqn:Ha.
    + rewrite lookup_insert_eq. simpl.
      destruct (ev_program_id e) as [i|]; simpl; by destruct (c !! INDEX_NAME).
    + by destruct (ev_program_id e).
  - destruct (ev_program_id e) as [i|]; [|done].
    apply map_eq. intros j. rewrite after_delete_lookup.
    destruct (c !! INDEX_NAME) as [ix|] eqn:Hix; simpl.
    + destruct (idx_docs ix !! i) as [doc|] eqn:Hd; simpl.
      * destruct (delete_error (idx_body ix) i doc) eqn:He.
        -- rewrite Hix. simpl. case_decide; [by subst|done].
        -- rewrite lookup_insert_eq. simpl.
           case_decide; [subst; apply lookup_delete_eq|by apply lookup_delete_ne].
      * rewrite Hix. simpl. case_decide; [by subst|done].
    + rewrite Hix. simpl. rewrite !lookup_empty. by case_decide.
Qed.

Lemma message_effect_auto m c :
  (∀ e, m = Dict e → operation_of e = Some Upsert → is_Some (ev_program_id e)) →
  index_auto_of (message_effect m c) = index_auto_of c.
Proof.
  intros Hid. unfold index_auto_of, message_effect, upsert_effect, delete_effect.
  destruct m as [e|v]; [|done]. specialize (Hid e eq_refl).
  destruct (operation_of e) as [[]|]; [| |done].
  - destruct (Hid eq_refl) as [i ->].
    destruct (accepts _ _); [|done]. rewrite lookup_insert_eq. simpl.
    by destruct (c !! INDEX_NAME).
  - destruct (ev_program_id e) as [i|]; [|done].
    destruct (c !! INDEX_NAME) as [ix|] eqn:Hix; [|by rewrite Hix].
    destruct (idx_docs ix !! i) as [doc|]; [|by rewrite Hix].
    destruct (delete_error _ _ _); [by rewrite Hix|].
    by rewrite lookup_insert_eq.
Qed.

Lemma message_effect_present m c :
  is_Some (message_effect m c !! INDEX_NAME)
  ↔ is_Some (c !! INDEX_NAME) ∨ taken (index_body_of c) m = true.
Proof.
  assert (∀ A : Prop, A ↔ A ∨ false = true) as Hskip
    by (intros A; split; [by left|by intros [?|?]]).
  unfold index_body_of, taken, message_effect, upsert_effect, delete_effect.
  destruct m as [e|v]; [|apply Hskip].
  destruct (operation_of e) as [[]|]; [| |apply Hskip].
  - destruct (accepts _ _); [|apply Hskip].
    rewrite lookup_insert_eq. split; [by right|by eauto].
  - destruct (ev_program_id e) as [i|]; [|apply Hskip].
    destruct (c !! INDEX_NAME) as [ix|] eqn:Hix; [|rewrite Hix; apply Hskip].
    destruct (idx_docs ix !! i) as [doc|]; [|rewrite Hix; apply Hskip].
    destruct (delete_error _ _ _); [rewrite Hix; apply Hskip|].
    rewrite lookup_insert_eq. split; [intros _; left; by eauto|by eauto].
Qed.

Lemma stream_effect_cons m rest c :
  stream_effect (m :: rest) c = stream_effect rest (message_effect m c).
Proof. reflexivity. Qed.


Lemma stream_effect_other name msgs c :
  name ≠ INDEX_NAME → stream_effect msgs c !! name = c !! name.
Proof.
  intros Hne. revert c. induction msgs as [|m rest IH]; intros c; [done|].
  by rewrite stream_effect_cons, IH, message_effect_other.
Qed.

Lemma stream_effect_body msgs c :
  index_body_of (stream_effect msgs c) = index_body_of c.
Proof.
  revert c. induction msgs as [|m rest IH]; intros c; [done|].
  by rewrite stream_effect_cons, IH, message_effect_body.
Qed.

Lemma stream_effect_docs msgs c :
  index_docs_of (stream_effect msgs c)
  = foldl (λ d m, doc_effect (index_body_of c) m d) (index_docs_of c) msgs.
Proof.
  revert c. induction msgs as [|m rest IH]; intros c; [done|].
  rewrite stream_effect_cons, IH, message_effect_body, message_effect_docs. done.
Qed.



Lemma stream_effect_present msgs c :
  is_Some (stream_effect msgs c !! INDEX_NAME)
  ↔ is_Some (c !! INDEX_NAME) ∨ ∃ m, m ∈ msgs ∧ taken (index_body_of c) m = true.
Proof.
  revert c. induction msgs as [|m rest IH]; intros c.
  - simpl. split; [by left|]. intros [?|(m & Hm & _)]; [done|].
    by apply elem_of_nil in Hm.
  - rewrite stream_effect_cons, IH, message_effect_body, message_effect_present.
    split.
    + intros [[?|?]|(m' & Hin & Ht)]; [by left| |].
      * right. exists m. split; [left|done].
      * right. exists m'. split; [by right|done].
    + intros [?|(m' & Hin & Ht)]; [by left; left|].
      apply elem_of_cons in Hin as [->|Hin]; [by left; right|].
      right. by exists m'.
Qed.

(** The document of an entity through a stream. *)
Lemma doc_effect_lookup b m d i :
  doc_effect b m d !! i = key_effect b i m (d !! i).
Proof.
  unfold doc_effect, key_effect. destruct m as [e|v]; [|done].
  destruct (decide (ev_program_id e = Some i)) as [->|Hne].
  - destruct (operation_of e) as [[]|]; [| |done].
    + destruct (accepts _ _); [|done]. apply lookup_insert_eq.
    + rewrite after_delete_lookup. by rewrite decide_True.
  - destruct (operation_of e) as [[]|]; [| |done].
    + destruct (ev_program_id e) as [j|]; [|done].
      destruct (accepts _ _); [|done]. apply lookup_insert_ne. congruence.
    + destruct (ev_program_id e) as [j|]; [|done].
      rewrite after_delete_lookup. rewrite decide_False; [done|congruence].
Qed.

Lemma docs_after_stream b msgs d i :
  foldl (λ d m, doc_effect b m d) d msgs !! i = key_run b i msgs (d !! i).
Proof.
  revert d. induction msgs as [|m rest IH]; intros d; [done|].
  simpl. rewrite IH. unfold key_run. simpl. by rewrite doc_effect_lookup.
Qed.

Lemma key_run_cons b i m rest o :
  key_run b i (m :: rest) o = key_run b i rest (key_effect b i m o).
Proof. reflexivity. Qed.

Lemma key_run_app b i xs ys o :
  key_run b i (xs ++ ys) o = key_run b i ys (key_run b i xs o).
Proof. unfold key_run. apply foldl_app. Qed.

Lemma key_effect_untouched b i m o :
  applies_to i m = None → key_effect b i m o = o.
Proof.
  unfold applies_to, key_effect. destruct m as [e|v]; [|done].
  destruct (decide _); [|done]. by intros ->.
Qed.

Lemma key_run_untouched b i msgs o :
  last_applied i msgs = None → key_run b i msgs o = o.
Proof.
  revert o. induction msgs as [|m rest IH]; intros o; [done|].
  cbn [last_applied]. destruct (last_applied i rest); [done|]. intros Hm.
  by rewrite key_run_cons, IH, key_effect_untouched.
Qed.

(** Where the engine carries out the deletes of an entity, the last event
    of the entity decides what its document is. *)
Lemma key_run_last b i msgs o :
  deletes_carried_out b i →
  match last_applied i msgs with
  | Some Delete => key_run b i msgs o = None
  | Some Upsert => True
  | None => key_run b i msgs o = o
  end.
Proof.
  intros Hdel. revert o. induction msgs as [|m rest IH]; intros o; [done|].
  cbn [last_applied]. rewrite key_run_cons. specialize (IH (key_effect b i m o)).
  destruct (last_applied i rest) as [[]|]; [done|done|].
  rewrite IH. destruct (applies_to i m) as [[]|] eqn:Hm; [done| |].
  - unfold applies_to in Hm. unfold key_effect. destruct m as [e|v]; [|done].
    destruct (decide _); [|done]. rewrite Hm.
    unfold after_delete. destruct o as [doc|]; [|done]. by rewrite Hdel.
  - by apply key_effect_untouched.
Qed.







End IndexViewFacts.

Section ConsumerFacts.
Context `{P : Platform}.

Lemma handle_upsert_returns id payload w :
  (handle_upsert id payload w).1 = Ok tt.
Proof.
  unfold handle_upsert, client_index. run.
  destruct (accepts _ _); reflexivity.
Qed.

Lemma handle_upsert_cluster id payload w :
  cluster (exec (handle_upsert id payload) w) = upsert_effect id payload (cluster w).
Proof.
  unfold handle_upsert, client_index, upsert_effect. run.
  destruct (accepts _ _); reflexivity.
Qed.

Lemma handle_delete_returns id w : (handle_delete id w).1 = Ok tt.
Proof.
  unfold handle_delete, client_delete. destruct id as [i|]; run; [|done].
  destruct (cluster w !! INDEX_NAME) as [ix|]; simpl; [|done].
  destruct (idx_docs ix !! i) as [doc|]; simpl; [|done].
  destruct (delete_error _ _ _); reflexivity.
Qed.

Lemma handle_delete_cluster id w :
  cluster (exec (handle_delete id) w) = delete_effect id (cluster w).
Proof.
  unfold handle_delete, client_delete, delete_effect.
  destruct id as [i|]; run; [|done].
  destruct (cluster w !! INDEX_NAME) as [ix|]; simpl; [|done].
  destruct (idx_docs ix !! i) as [doc|]; simpl; [|done].
  destruct (delete_error _ _ _); reflexivity.
Qed.

Lemma process_message_returns m w : (process_message m w).1 = Ok tt.
Proof.
  unfold process_message. destruct m as [e|v]; run; [|done].
  set (w1 := {| cluster := cluster w |}).
  destruct (_ || _)%bool.
  - pose proof (handle_upsert_returns (ev_program_id e) (default ∅ (ev_payload e)) w1) as H.
    destruct (handle_upsert _ _ w1) as [[[]|] ?]; simpl in *; congruence.
  - destruct (op_eq _ "delete").
    + pose proof (handle_delete_returns (ev_program_id e) w1) as H.
      destruct (handle_delete _ w1) as [[[]|] ?]; simpl in *; congruence.
    + reflexivity.
Qed.

Lemma process_message_cluster m w :
  cluster (exec (process_message m) w) = message_effect m (cluster w).
Proof.
  unfold process_message, message_effect, operation_of.
  destruct m as [e|v]; run; [|done].
  set (w1 := {| cluster := cluster w |}).
  destruct (_ || _)%bool.
  - pose proof (handle_upsert_returns (ev_program_id e) (default ∅ (ev_payload e)) w1) as H.
    pose proof (handle_upsert_cluster (ev_program_id e) (default ∅ (ev_payload e)) w1) as Hc.
    unfold exec in Hc.
    destruct (handle_upsert _ _ w1) as [[[]|] ?]; simpl in *; congruence.
  - destruct (op_eq _ "delete").
    + pose proof (handle_delete_returns (ev_program_id e) w1) as H.
      pose proof (handle_delete_cluster (ev_program_id e) w1) as Hc.
      unfold exec in Hc.
      destruct (handle_delete _ w1) as [[[]|] ?]; simpl in *; congruence.
    + reflexivity.
Qed.

(** The loop goes on after every message. *)
Lemma consume_cons m rest w :
  consume (m :: rest) w = consume rest (exec (process_message m) w).
Proof.
  unfold consume, exec. simpl. unfold mbind, M_bind.
  pose proof (process_message_returns m w) as H.
  destruct (process_message m w) as [[[]|] ?]; simpl in *; congruence.
Qed.

Lemma consume_nil w : consume [] w = (Ok tt, w).
Proof. reflexivity. Qed.

Lemma consume_returns msgs w : (consume msgs w).1 = Ok tt.
Proof.
  revert w. induction msgs as [|m rest IH]; intros w; [done|].
  rewrite consume_cons. apply IH.
Qed.

Lemma exec_consume_cons m rest w :
  exec (consume (m :: rest)) w = exec (consume rest) (exec (process_message m) w).
Proof. unfold exec at 1 2. by rewrite consume_cons. Qed.

Lemma orphans_message m w :
  (∀ e, m = Dict e → operation_of e = Some Upsert → is_Some (ev_program_id e)) →
  orphans (exec (process_message m) w) = orphans w.
Proof.
  intros Hid. change (index_auto_of (cluster (exec (process_message m) w))
                      = index_auto_of (cluster w)).
  rewrite process_message_cluster. by apply message_effect_auto.
Qed.

Lemma orphans_untouched msgs w :
  (∀ e, Dict e ∈ msgs → operation_of e = Some Upsert → is_Some (ev_program_id e)) →
  orphans (exec (consume msgs) w) = orphans w.
Proof.
  revert w. induction msgs as [|m rest IH]; intros w Hid; [done|].
  rewrite exec_consume_cons, IH.
  - apply orphans_message. intros e -> Hop. apply Hid; [left|done].
  - intros e He. apply Hid. by right.
Qed.

Lemma consume_cluster msgs w :
  cluster (exec (consume msgs) w) = stream_effect msgs (cluster w).
Proof.
  revert w. induction msgs as [|m rest IH]; intros w; [done|].
  rewrite exec_consume_cons, IH, process_message_cluster. done.
Qed.

(** A turn of the loop returns, whatever the poll brought, also when the
    broker failed. *)
Lemma consumer_turn_run p w :
  (consumer_turn p w).1 = Ok tt ∧
  cluster (exec (consumer_turn p) w) = stream_effect (delivered p) (cluster w).
Proof.
  pose proof (consume_returns (delivered p) w) as Hr.
  pose proof (consume_cluster (delivered p) w) as Hc.
  unfold consumer_turn. run.
  destruct (consume (delivered p) w) as [[[]|] w1]; simpl in *; [|done].
  by destruct (ending p).
Qed.

Lemma consumer_loop_run polls w :
  (consumer_loop polls w).1 = Ok tt ∧
  cluster (exec (consumer_loop polls) w) = stream_effect (stream polls) (cluster w).
Proof.
  revert w. induction polls as [|p rest IH]; intros w; [done|].
  destruct (consumer_turn_run p w) as [Hr Hc].
  unfold consumer_loop, exec in *. simpl. unfold mbind, M_bind.
  destruct (consumer_turn p w) as [[[]|] w1]; simpl in *; [|done].
  destruct (IH w1) as [IHr IHc]. split; [exact IHr|].
  rewrite IHc, Hc. unfold stream, stream_effect. simpl.
  by rewrite foldl_app.
Qed.

Lemma consumer_loop_as_consume polls w :
  cluster (exec (consumer_loop polls) w)
  = cluster (exec (consume (stream polls)) w).
Proof.
  rewrite consume_cluster. apply consumer_loop_run.
Qed.

(** The document of an entity after a message and after a stream. *)
Lemma stored_docs w i : stored w i = index_docs_of (cluster w) !! i.
Proof.
  unfold stored, index_docs_of.
  destruct (cluster w !! INDEX_NAME); [done|]. simpl. by rewrite lookup_empty.
Qed.

Lemma stored_after_message m w i :
  stored (exec (process_message m) w) i
  = key_effect (index_body_of (cluster w)) i m (stored w i).
Proof.
  rewrite !stored_docs, process_message_cluster, message_effect_docs.
  apply doc_effect_lookup.
Qed.

Lemma stored_after_consume msgs w i :
  stored (exec (consume msgs) w) i
  = key_run (index_body_of (cluster w)) i msgs (stored w i).
Proof.
  rewrite !stored_docs, consume_cluster, stream_effect_docs. apply docs_after_stream.
Qed.

Lemma stored_untouched i msgs w :
  last_applied i msgs = None →
  stored (exec (consume msgs) w) i = stored w i.
Proof. intros Hl. rewrite stored_after_consume. by apply key_run_untouched. Qed.

(** The state of the index after a stream of messages, where the engine
    carries out the deletes of the entity. *)
Lemma consume_index_state msgs w i :
  deletes_carried_out (index_body_of (cluster w)) i →
  (last_applied i msgs = Some Delete →
   stored (exec (consume msgs) w) i = None) ∧
  (is_Some (stored (exec (consume msgs) w) i) →
   last_applied i msgs = Some Upsert ∨
   (last_applied i msgs = None ∧ is_Some (stored w i))).
Proof.
  intros Hdel. rewrite stored_after_consume.
  pose proof (key_run_last _ i msgs (stored w i) Hdel) as Hlast.
  destruct (last_applied i msgs) as [[]|].
  - split; [done|]. by left.
  - rewrite Hlast. split; [done|]. by intros [? ?].
  - rewrite Hlast. split; [done|]. by right.
Qed.

End ConsumerFacts.

Section ConsumerClaims.
Context `{P : Platform}.

Lemma op_eq_false op tag : op ≠ Some tag → op_eq op tag = false.
Proof.
  intros Hne. destruct op as [s|]; [|done]. simpl.
  apply String.eqb_neq. congruence.
Qed.

Lemma unknown_tag_no_operation (e : event) :
  (∀ tag, tag ∈ ["upsert"; "create"; "update"; "delete"] → ev_op e ≠ Some tag) →
  operation_of e = None.
Proof.
  intros H. unfold operation_of.
  rewrite !op_eq_false; [done|apply H..]; set_solver.
Qed.

(** C1 (amended). Whatever polls the loop of the consumer has gone
    through, with whatever messages and broker failures, the loop has not
    raised; and where the engine carries out the deletes of an entity, an
    entity whose last event was a delete has no document in the index, and
    an entity that has a document either had an upsert as its last event or
    was not touched by the stream and had its document before. So, from an
    index without documents, the documents are among the entities whose
    last event was an upsert. When every upsert of the stream carries an
    entity id, as a ChangeEvent does, no document is added outside the
    entity ids. A delete that fails in the engine is caught by the handler,
    logged and skipped, and leaves the document: without the condition on
    the engine the invariant does not hold. *)
Theorem C1_no_document_after_delete (polls : list poll) (w : world) (i : Z) :
  deletes_carried_out (index_body_of (cluster w)) i →
  (consumer_loop polls w).1 = Ok tt ∧
  (last_applied i (stream polls) = Some Delete →
   stored (exec (consumer_loop polls) w) i = None) ∧
  (is_Some (stored (exec (consumer_loop polls) w) i) →
   last_applied i (stream polls) = Some Upsert ∨
   (last_applied i (stream polls) = None ∧ is_Some (stored w i))) ∧
  ((∀ e, Dict e ∈ stream polls → operation_of e = Some Upsert →
         is_Some (ev_program_id e)) →
   orphans (exec (consumer_loop polls) w) = orphans w).
Proof.
  intros Hdel.
  pose proof (consumer_loop_as_consume polls w) as Hloop.
  destruct (consume_index_state (stream polls) w i Hdel) as [Hd Hu].
  unfold stored, orphans in *. rewrite Hloop.
  split_and!; [apply consumer_loop_run|exact Hd|exact Hu|].
  apply orphans_untouched.
Qed.

(** C3 (amended). An upsert of an entity, under any of its spellings and
    with any payload, followed by a delete of the same entity leaves no
    document under that id, so that the lookup answers not-found, where the
    engine carries out the deletes of the entity. A delete that fails in
    the engine is caught, logged and skipped: the payload of the upsert is
    then still found. *)
Theorem C3_upsert_then_delete_not_found
    (t : upsert_tag) (id : Z) (A : document) (w : world) :
  deletes_carried_out (index_body_of (cluster w)) id →
  stored (exec (consume [upsert_message t id A; delete_message id]) w) id = None.
Proof.
  intros Hdel. rewrite stored_after_consume.
  pose proof (key_run_last _ id [upsert_message t id A; delete_message id]
                (stored w id) Hdel) as Hlast.
  replace (last_applied id [upsert_message t id A; delete_message id])
    with (Some Delete) in Hlast; [exact Hlast|].
  unfold last_applied, applies_to, delete_message. simpl.
  by rewrite decide_True.
Qed.

(** C6. A message whose operation tag is none of upsert, create, update and
    delete is logged as a warning and dropped: nothing is sent to the
    engine, the cluster stays as it was, the dispatch returns, and the
    messages that follow are processed from that state. *)
Theorem C6_unknown_operation_skipped (e : event) (w : world) :
  (∀ tag, tag ∈ ["upsert"; "create"; "update"; "delete"] → ev_op e ≠ Some tag) →
  let w' := exec (process_message (Dict e)) w in
  process_message (Dict e) w = (Ok tt, w') ∧
  cluster w' = cluster w ∧
  sent w' = sent w ∧
  logged w' = (logged w ++ [(INFO, ReceivedMessage (Dict e));
                            (WARNING, UnknownOperation (ev_op e))])%list ∧
  ∀ rest, consume (Dict e :: rest) w = consume rest w'.
Proof.
  intros Htag w'. subst w'.
  pose proof (unknown_tag_no_operation e Htag) as Hop. unfold operation_of in Hop.
  split_and!; try (intros rest; apply consume_cons).
  all: unfold process_message; run.
  all: destruct (_ || _)%bool; [done|].
  all: destruct (op_eq _ "delete"); [done|]; simpl.
  all: by rewrite <- ?app_assoc.
Qed.

(** C7. A delete of an entity that has no document does not raise out of
    the handler or out of the dispatch: the engine's not-found is logged as
    a warning, the cluster stays as it was, and the messages that follow are
    processed. *)
Theorem C7_delete_of_absent_id (id : Z) (w : world) :
  stored w id = None →
  let w' := exec (process_message (delete_message id)) w in
  (∃ w1, handle_delete (Some id) w = (Ok tt, w1) ∧
         cluster w1 = cluster w ∧
         logged w1 = (logged w ++ [(WARNING, DeleteFailed (Some id) NotFoundError)])%list) ∧
  process_message (delete_message id) w = (Ok tt, w') ∧
  cluster w' = cluster w ∧
  logged w' = (logged w ++ [(INFO, ReceivedMessage (delete_message id));
                            (WARNING, DeleteFailed (Some id) NotFoundError)])%list ∧
  ∀ rest, consume (delete_message id :: rest) w = consume rest w'.
Proof.
  intros Habs w'. subst w'. unfold stored in Habs.
  split_and!; try (intros rest; apply consume_cons).
  - unfold handle_delete, client_delete. run.
    destruct (cluster w !! INDEX_NAME) as [ix|]; simpl in *.
    + rewrite Habs. by eexists.
    + by eexists.
  - unfold process_message, delete_message, handle_delete, client_delete. run.
    destruct (cluster w !! INDEX_NAME) as [ix|]; simpl in *.
    + by rewrite Habs.
    + done.
  - rewrite process_message_cluster. simpl. unfold delete_effect.
    destruct (cluster w !! INDEX_NAME) as [ix|]; simpl in *; [|done].
    by rewrite Habs.
  - unfold process_message, delete_message, handle_delete, client_delete. run.
    destruct (cluster w !! INDEX_NAME) as [ix|]; simpl in *.
    + rewrite Habs. simpl. by rewrite <- app_assoc.
    + by rewrite <- app_assoc.
Qed.


End ConsumerClaims.

(** C1, as the spec has it, fails when the engine fails a delete: the
    handler catches the failure and the loop goes on, so the last event of
    entity 5 is a delete and its document is still in the index. *)
Lemma C1_failed_delete_keeps_document :
  ¬ (∀ (polls : list poll) (w : world) (i : Z),
       last_applied i (stream polls) = Some Delete →
       stored (P := stuck_bench)
         (exec (consumer_loop (P := stuck_bench) polls) w) i = None).
Proof.
  intros H.
  specialize (H [Poll [upsert_message tag_upsert 5 coffee; delete_message 5] Idle]
                empty_world 5 eq_refl).
  vm_compute in H. discriminate H.
Qed.

(** C3, as the spec has it, fails in the same way: after the upsert of 5
    with the payload and the delete of 5, the payload is still found when
    the engine failed the delete. *)
Lemma C3_failed_delete_leaves_payload :
  ¬ (∀ (t : upsert_tag) (id : Z) (A : document) (w : world),
       stored (P := stuck_bench)
         (exec (consume (P := stuck_bench)
                  [upsert_message t id A; delete_message id]) w) id = None).
Proof.
  intros H. specialize (H tag_upsert 5 coffee empty_world).
  vm_compute in H. discriminate H.
Qed.

Section SchemaManagerClaims.
Context `{P : Platform}.

#[local] Arguments get_client : simpl never.

Lemma indices_exists_run name w :
  indices_exists name w
  = (Ok (bool_decide (is_Some (cluster w !! name))),
     {| cluster := cluster w; sent := sent w ++ [ReqExists name];
        logged := logged w; console := console w; slept_ms := slept_ms w |}).
Proof. reflexivity. Qed.

Lemma get_client_run w :
  get_client w = (Ok tt, w) ∨ get_client w = (Raise ValueError, w).
Proof.
  unfold get_client.
  destruct (split _ _) as [|? [|port [|? ?]]]; try (by right).
  destruct (py_int port); [by left|by right].
Qed.

(** C2, as the code has it. The schema manager run at the start of the
    consumer asks whether the index exists and creates it with the fixed
    mapping only when it does not; an index that exists is left as it is and
    no create request is sent. When the engine does not carry the creation
    out, the manager logs the error and raises it again, and the cluster is
    as it was. The operator command, when its mapping file is there and its
    client is built, deletes an index that exists, with its documents, and
    then asks for a fresh index from the file: it ends with that index, or,
    when the engine does not carry the creation out, with the error and
    without any index of that name. *)
Theorem C2_schema_manager (w : world) (mapping : json) :
  leaves_existing_index INDEX_NAME create_index_if_not_exists ∧
  (let w1 := exec create_index_if_not_exists w in
   match cluster w !! INDEX_NAME with
   | Some _ =>
       create_index_if_not_exists w = (Ok tt, w1) ∧
       cluster w1 = cluster w ∧
       sent w1 = (sent w ++ [ReqExists INDEX_NAME])%list
   | None =>
       sent w1 = (sent w ++ [ReqExists INDEX_NAME;
                             ReqCreate INDEX_NAME programs_index_body])%list ∧
       match create_error INDEX_NAME programs_index_body with
       | None =>
           create_index_if_not_exists w = (Ok tt, w1) ∧
           cluster w1 = <[INDEX_NAME := new_index programs_index_body]> (cluster w)
       | Some e =>
           create_index_if_not_exists w = (Raise e, w1) ∧
           cluster w1 = cluster w ∧
           logged w1 = (logged w ++ [(ERROR, ErrorCreatingIndex e)])%list
       end
   end) ∧
  (let w2 := exec (Command_handle (FileJson mapping)) w in
   match (get_client w).1 with
   | Raise e => Command_handle (FileJson mapping) w = (Raise e, w)
   | Ok _ =>
       sent w2 = (sent w ++ [ReqExists COMMAND_INDEX_NAME] ++
                  (if bool_decide (is_Some (cluster w !! COMMAND_INDEX_NAME))
                   then [ReqDeleteIndex COMMAND_INDEX_NAME] else []) ++
                  [ReqCreate COMMAND_INDEX_NAME mapping])%list ∧
       match create_error COMMAND_INDEX_NAME mapping with
       | None =>
           Command_handle (FileJson mapping) w = (Ok tt, w2) ∧
           cluster w2 = <[COMMAND_INDEX_NAME := new_index mapping]> (cluster w)
       | Some e =>
           Command_handle (FileJson mapping) w = (Raise e, w2) ∧
           cluster w2 = delete COMMAND_INDEX_NAME (cluster w)
       end
   end).
Proof.
  split_and!.
  - intros w0 ix Hix. unfold create_index_if_not_exists, indices_exists. run.
    rewrite Hix. rewrite bool_decide_eq_true_2 by eauto. simpl. exact Hix.
  - unfold create_index_if_not_exists, indices_exists, indices_create. run.
    destruct (cluster w !! INDEX_NAME) as [ix|] eqn:Hix.
    + rewrite bool_decide_eq_true_2 by eauto. done.
    + rewrite bool_decide_eq_false_2 by (intros [? ?]; done). simpl.
      rewrite Hix. simpl.
      destruct (create_error _ _); simpl; split_and!; try done;
        by rewrite <- ?app_assoc.
  - unfold Command_handle, indices_exists, indices_create, indices_delete. run.
    destruct (get_client_run w) as [-> | ->]; simpl; [|done].
    destruct (cluster w !! COMMAND_INDEX_NAME) as [ix|] eqn:Hix.
    + rewrite bool_decide_eq_true_2 by eauto. simpl. rewrite Hix. simpl.
      rewrite lookup_delete_eq. simpl.
      destruct (create_error _ _); simpl; split_and!; try done;
        try (by rewrite <- !app_assoc).
      apply insert_delete_eq.
    + rewrite bool_decide_eq_false_2 by (intros [? ?]; done). simpl.
      rewrite Hix. simpl.
      destruct (create_error _ _); simpl; split_and!; try done;
        try (by rewrite <- !app_assoc).
      symmetry. by apply delete_id.
Qed.

End SchemaManagerClaims.

(** C2, as the spec has it, fails for the operator command: run on a
    cluster that holds the index with a document, the command leaves an
    index with the body of the mapping file and without the document. *)
Lemma C2_command_replaces_existing_index :
  ¬ (∀ mapping : json,
       leaves_existing_index (COMMAND_INDEX_NAME (P := bench))
         (Command_handle (P := bench) (FileJson mapping))).
Proof.
  intros H.
  specialize (H (JDict []) live_world _ eq_refl).
  vm_compute in H. discriminate H.
Qed.

Section SearchFacts.
Context `{P : Platform}.

Lemma get_opensearch_client_run w :
  get_opensearch_client w = (Ok tt, w) ∨
  get_opensearch_client w = (Raise ValueError, w).
Proof.
  unfold get_opensearch_client.
  destruct (split _ _) as [|? [|port [|? ?]]]; try (by right).
  destruct (py_int port); [by left|by right].
Qed.

Lemma int_param_run GET name dflt w :
  match GET !! name with
  | None => int_param GET name dflt w = (Ok dflt, w)
  | Some s =>
      match py_int s with
      | Some z => int_param GET name dflt w = (Ok z, w)
      | None => int_param GET name dflt w = (Raise ValueError, w)
      end
  end.
Proof.
  unfold int_param. destruct (GET !! name) as [s|]; [|done].
  by destruct (py_int s).
Qed.

Lemma int_param_cases GET name dflt w :
  (∃ z, int_param GET name dflt w = (Ok z, w)) ∨
  int_param GET name dflt w = (Raise ValueError, w).
Proof.
  pose proof (int_param_run GET name dflt w) as H.
  destruct (GET !! name) as [s|]; [destruct (py_int s)|]; eauto.
Qed.

Lemma reshape_all_run hits w :
  Forall (λ h, is_Some (hit_source h)) hits →
  ∃ rs, reshape_all hits w = (Ok rs, w) ∧ length rs = length hits.
Proof.
  induction 1 as [|h rest [src Hsrc] _ [rs [IH Hlen]]]; [by exists []|].
  simpl. unfold reshape at 1. rewrite Hsrc. run. rewrite IH. simpl.
  eexists. split; [reflexivity|]. simpl. by rewrite Hlen.
Qed.

(** The quotient [(total + size - 1) // size] is the ceiling of
    [total / size] for a positive [size]. *)
Lemma ceiling_division (total size : Z) :
  1 ≤ size →
  ((total + size - 1) / size - 1) * size < total ≤ (total + size - 1) / size * size.
Proof.
  intros Hs.
  pose proof (Z.div_mod (total + size - 1) size ltac:(lia)) as Hdm.
  pose proof (Z.mod_pos_bound (total + size - 1) size ltac:(lia)) as Hm.
  nia.
Qed.

Lemma term_count_app f (xs ys : list clause) :
  term_count f (xs ++ ys) = (term_count f xs + term_count f ys)%nat.
Proof. unfold term_count. by rewrite List.filter_app, length_app. Qed.

Lemma term_count_range f field lo hi :
  term_count f (range_filter field lo hi) = 0%nat.
Proof. unfold range_filter. by destruct (_ || _)%bool. Qed.

Lemma term_count_tags f tags : term_count f (tags_filter tags) = 0%nat.
Proof. unfold tags_filter. destruct tags as [[|? ?]|]; done. Qed.

Lemma term_count_term f field v :
  term_count f (term_filter field v)
  = if (String.eqb field f && truthy v)%bool then 1%nat else 0%nat.
Proof.
  unfold term_filter, term_count, truthy.
  destruct v as [[|a s]|]; simpl; rewrite ?andb_false_r; try done.
  by destruct (String.eqb field f).
Qed.

Lemma elem_of_term_filter f v field p :
  Term f v ∈ term_filter field p → f = field ∧ p = Some v ∧ v ≠ "".
Proof.
  unfold term_filter. destruct p as [[|a s]|]; simpl;
    rewrite ?elem_of_nil, ?list_elem_of_singleton; try done.
  by intros [= -> ->].
Qed.

End SearchFacts.

Section SearchClaims.
Context `{P : Platform}.

#[local] Arguments build_search_body : simpl never.
#[local] Arguments get_opensearch_client : simpl never.
#[local] Arguments int_param : simpl never.
#[local] Arguments reshape_all : simpl never.

(** C4. A request whose [q] is missing or empty is answered with status
    400 and an error message, and the world is left as it was: no request
    is sent to the engine. *)
Theorem C4_missing_query_rejected (GET : gmap string string) (w : world) :
  GET !! "q" = None ∨ GET !! "q" = Some "" →
  get GET w
  = (Ok {| data := ErrorBody "Query parameter 'q' is required" None;
           status := HTTP_400_BAD_REQUEST |}, w) ∧
  HTTP_400_BAD_REQUEST = 400 ∧
  sent (exec (get GET) w) = sent w.
Proof.
  intros Hq. unfold exec, get.
  destruct Hq as [-> | ->]; done.
Qed.

(** C5. For a request with a query, a page and a positive page size, on
    which the search runs through: the size sent to the engine is the page
    size clamped to 100, the offset sent is [(page - 1)] times that size,
    and the answer carries, as [total_pages], the ceiling of the total by
    that size. *)
Theorem C5_pagination (GET : gmap string string) (w : world)
    (query : string) (page size : Z) (response : search_response) :
  GET !! "q" = Some query →
  is_empty query = false →
  get_opensearch_client w = (Ok tt, w) →
  int_param GET "page" 1 w = (Ok page, w) →
  int_param GET "page_size" 20 w = (Ok size, w) →
  1 ≤ size →
  run_search (cluster w) "programs"
    (build_search_body GET query page (Z.min size 100)) = Ok response →
  Forall (λ h, is_Some (hit_source h)) (response_hits response) →
  let page_size := Z.min size 100 in
  let search_body := build_search_body GET query page page_size in
  ∃ (d : page_data) (w' : world),
    get GET w = (Ok {| data := PageBody d; status := HTTP_200_OK |}, w') ∧
    sent w' = (sent w ++ [ReqSearch "programs" search_body])%list ∧
    sb_from search_body = (page - 1) * page_size ∧
    sb_size search_body = page_size ∧
    page_size ≤ 100 ∧
    pd_page d = page ∧
    pd_page_size d = page_size ∧
    pd_total d = response_total response ∧
    (pd_total_pages d - 1) * page_size < pd_total d ≤ pd_total_pages d * page_size.
Proof.
  intros Hq Hne Hclient Hpage Hsize Hpos Hsearch Hhits page_size search_body.
  assert (1 ≤ page_size) as Hps by (subst page_size; lia).
  destruct (reshape_all_run (response_hits response)
              {| cluster := cluster w;
                 sent := sent w ++ [ReqSearch "programs" search_body];
                 logged := logged w; console := console w;
                 slept_ms := slept_ms w |} Hhits) as [rs [Hrs _]].
  subst search_body page_size.
  unfold get. rewrite Hq. simpl. rewrite Hne.
  unfold client_search, floordiv. run.
  rewrite Hclient, Hpage, Hsize. simpl.
  rewrite Hsearch. simpl.
  destruct (Z.eqb_spec (Z.min size 100) 0) as [?|_]; [lia|]. simpl.
  rewrite Hrs. simpl.
  eexists _, _. split; [reflexivity|]. simpl.
  split_and!; try done; try lia.
  all: apply ceiling_division; exact Hps.
Qed.

(** C9. The filter list of the query holds one exact-match clause on
    category, on language and on media_type for each of these parameters
    that comes with a value, and none for one that is absent or empty;
    every exact-match clause in it is on one of the three fields, with the
    value of the parameter. With only category and language given, the
    list is exactly their two clauses. *)
Theorem C9_exact_match_filters (GET : gmap string string)
    (query : string) (page page_size : Z) :
  let filters := sb_filter (build_search_body GET query page page_size) in
  term_count "category" filters
    = (if truthy (GET !! "category") then 1 else 0)%nat ∧
  term_count "language" filters
    = (if truthy (GET !! "language") then 1 else 0)%nat ∧
  term_count "media_type" filters
    = (if truthy (GET !! "media_type") then 1 else 0)%nat ∧
  (∀ f v, Term f v ∈ filters →
     (f = "category" ∨ f = "language" ∨ f = "media_type") ∧
     GET !! f = Some v ∧ v ≠ "") ∧
  (∀ c l, GET !! "category" = Some c → c ≠ "" →
     GET !! "language" = Some l → l ≠ "" →
     truthy (GET !! "media_type") = false →
     truthy (GET !! "duration_min") = false →
     truthy (GET !! "duration_max") = false →
     truthy (GET !! "publish_date_from") = false →
     truthy (GET !! "publish_date_to") = false →
     truthy (GET !! "tags") = false →
     filters = [Term "category" c; Term "language" l]).
Proof.
  simpl. unfold filter_queries.
  split_and!.
  1-3: rewrite !term_count_app, !term_count_term, !term_count_range,
         term_count_tags; simpl; by destruct (truthy _).
  - intros f v. rewrite !elem_of_app.
    intros [H|[H|[H|[H|[H|H]]]]].
    1-3: apply elem_of_term_filter in H as (-> & Hv & Hnv); rewrite Hv.
    1-3: split; [tauto|done].
    + unfold range_filter in H. destruct (_ || _)%bool.
      * by apply list_elem_of_singleton in H.
      * by apply elem_of_nil in H.
    + unfold range_filter in H. destruct (_ || _)%bool.
      * by apply list_elem_of_singleton in H.
      * by apply elem_of_nil in H.
    + unfold tags_filter in H. destruct (GET !! "tags") as [[|? ?]|].
      * by apply elem_of_nil in H.
      * by apply list_elem_of_singleton in H.
      * by apply elem_of_nil in H.
  - intros c l Hc Hcne Hl Hlne Hm Hd1 Hd2 Hp1 Hp2 Ht.
    rewrite Hc, Hl. unfold range_filter. rewrite Hd1, Hd2, Hp1, Hp2. simpl.
    unfold term_filter, tags_filter.
    destruct c as [|? ?]; [done|]. destruct l as [|? ?]; [done|]. simpl.
    destruct (GET !! "media_type") as [[|? ?]|]; try done.
    all: destruct (GET !! "tags") as [[|? ?]|]; done.
Qed.

(** C10. A request with a query and a page size that reads as 0 is answered
    with status 500, not 400: when the client is built, the page reads and
    the search runs through, the search is sent with size 0 and the error is
    the division by zero of the total-pages quotient, caught by the handler
    around the whole search. A page or a page size that [int] refuses is
    answered with status 500 as well, with the [ValueError], before any
    search is sent. *)
Theorem C10_bad_page_size_is_server_error (GET : gmap string string) (w : world)
    (query : string) :
  GET !! "q" = Some query →
  is_empty query = false →
  (∀ s, GET !! "page_size" = Some s → py_int s = Some 0 →
     (∃ e w',
        get GET w = (Ok {| data := ErrorBody "Search failed" (Some e);
                           status := HTTP_500_INTERNAL_SERVER_ERROR |}, w')) ∧
     (∀ page response,
        get_opensearch_client w = (Ok tt, w) →
        int_param GET "page" 1 w = (Ok page, w) →
        run_search (cluster w) "programs" (build_search_body GET query page 0)
          = Ok response →
        ∃ w',
          get GET w = (Ok {| data := ErrorBody "Search failed" (Some ZeroDivisionError);
                             status := HTTP_500_INTERNAL_SERVER_ERROR |}, w') ∧
          sent w' = (sent w ++ [ReqSearch "programs"
                                  (build_search_body GET query page 0)])%list)) ∧
  (∀ name s, name = "page" ∨ name = "page_size" →
     GET !! name = Some s → py_int s = None →
     ∃ w',
       get GET w = (Ok {| data := ErrorBody "Search failed" (Some ValueError);
                          status := HTTP_500_INTERNAL_SERVER_ERROR |}, w') ∧
       sent w' = sent w) ∧
  HTTP_500_INTERNAL_SERVER_ERROR = 500.
Proof.
  intros Hq Hne. split_and!; [| |done].
  - intros s Hs Hzero.
    pose proof (int_param_run GET "page_size" 20) as Hsize.
    rewrite Hs, Hzero in Hsize.
    split.
    + unfold get. rewrite Hq. simpl. rewrite Hne.
      unfold client_search, floordiv. run.
      destruct (get_opensearch_client_run w) as [-> | ->]; simpl; [|by eexists _, _].
      destruct (int_param_cases GET "page" 1 w) as [[page ->] | ->]; simpl;
        [|by eexists _, _].
      rewrite Hsize. simpl.
      destruct (run_search _ _ _); simpl; by eexists _, _.
    + intros page response Hclient Hpage Hsearch.
      unfold get. rewrite Hq. simpl. rewrite Hne.
      unfold client_search, floordiv. run.
      rewrite Hclient, Hpage, Hsize. simpl.
      change (Z.min 0 100) with 0. rewrite Hsearch. simpl. by eexists.
  - intros name s Hname Hs Hbad.
    pose proof (int_param_run GET name) as Hread. rewrite Hs, Hbad in Hread.
    unfold get. rewrite Hq. simpl. rewrite Hne. run.
    destruct (get_opensearch_client_run w) as [-> | ->]; simpl; [|by eexists].
    destruct Hname as [-> | ->].
    + rewrite Hread. simpl. by eexists.
    + destruct (int_param_cases GET "page" 1 w) as [[page ->] | ->]; simpl;
        [|by eexists].
      rewrite Hread. simpl. by eexists.
Qed.

End SearchClaims.

(** * The claims on the bench *)

Lemma C1_no_document_after_delete_witness :
  deletes_carried_out (P := bench) (index_body_of (P := bench) (cluster live_world)) 6 ∧
  last_applied 6 (stream [Poll sample_batch (Broken ConnectionError)]) = Some Delete ∧
  stored (P := bench)
    (exec (consumer_loop (P := bench) [Poll sample_batch (Broken ConnectionError)])
       live_world) 6
  = None.
Proof.
  assert (deletes_carried_out (P := bench)
            (index_body_of (P := bench) (cluster live_world)) 6) as Hdel.
  { intros doc. reflexivity. }
  split; [exact Hdel|]. split; [reflexivity|].
  destruct (C1_no_document_after_delete (P := bench)
              [Poll sample_batch (Broken ConnectionError)] live_world 6 Hdel)
    as (_ & Hgone & _).
  apply Hgone. reflexivity.
Defined.

Lemma C3_upsert_then_delete_not_found_witness :
  deletes_carried_out (P := bench) (index_body_of (P := bench) (cluster empty_world)) 5 ∧
  stored (P := bench)
    (exec (consume (P := bench) [upsert_message tag_upsert 5 coffee; delete_message 5])
       empty_world) 5
  = None.
Proof.
  assert (deletes_carried_out (P := bench)
            (index_body_of (P := bench) (cluster empty_world)) 5) as Hdel.
  { intros doc. reflexivity. }
  split; [exact Hdel|].
  exact (C3_upsert_then_delete_not_found (P := bench) tag_upsert 5 coffee
           empty_world Hdel).
Defined.

Lemma C4_missing_query_rejected_witness :
  no_query_request !! "q" = None ∧
  get (P := bench) no_query_request empty_world
  = (Ok {| data := ErrorBody "Query parameter 'q' is required" None;
           status := 400 |}, empty_world).
Proof.
  split; [reflexivity|].
  apply (C4_missing_query_rejected (P := bench) no_query_request empty_world).
  left. reflexivity.
Defined.

Lemma C5_pagination_witness :
  ∃ (d : page_data) (w' : world),
    get (P := bench) paged_request empty_world
    = (Ok {| data := PageBody d; status := 200 |}, w') ∧
    sent w' = [ReqSearch "programs"
                 (build_search_body paged_request "coffee" 2 10)] ∧
    sb_from (build_search_body paged_request "coffee" 2 10) = 10 ∧
    pd_total d = 25 ∧
    pd_page_size d = 10 ∧
    pd_total_pages d = 3.
Proof.
  destruct (C5_pagination (P := bench) paged_request empty_world
              "coffee" 2 10 bench_response)
    as (d & w' & Hget & Hsent & Hfrom & _ & _ & _ & Hsize & Htotal & Hceil);
    try reflexivity.
  - lia.
  - constructor.
  - exists d, w'. change (Z.min 10 100) with 10 in *.
    change (response_total bench_response) with 25 in Htotal.
    split_and!; try done. lia.
Defined.

Lemma C6_unknown_operation_skipped_witness :
  ev_op unknown_event = Some "archive" ∧
  process_message (P := bench) (Dict unknown_event) live_world
  = (Ok tt, exec (process_message (P := bench) (Dict unknown_event)) live_world) ∧
  cluster (exec (process_message (P := bench) (Dict unknown_event)) live_world)
  = cluster live_world.
Proof.
  split; [reflexivity|].
  destruct (C6_unknown_operation_skipped (P := bench) unknown_event live_world)
    as (Hrun & Hcluster & _).
  { intros tag Htag. simpl.
    repeat (apply elem_of_cons in Htag as [-> | Htag]; [discriminate|]).
    by apply elem_of_nil in Htag. }
  split; assumption.
Defined.

Lemma C7_delete_of_absent_id_witness :
  stored (P := bench) live_world 7 = None ∧
  process_message (P := bench) (delete_message 7) live_world
  = (Ok tt, exec (process_message (P := bench) (delete_message 7)) live_world) ∧
  cluster (exec (process_message (P := bench) (delete_message 7)) live_world)
  = cluster live_world.
Proof.
  split; [reflexivity|].
  destruct (C7_delete_of_absent_id (P := bench) 7 live_world)
    as (_ & Hrun & Hcluster & _); [reflexivity|].
  split; assumption.
Defined.

Lemma C10_bad_page_size_is_server_error_witness :
  zero_size_request !! "page_size" = Some "0" ∧
  py_int (Platform := bench) "0" = Some 0 ∧
  ∃ w',
    get (P := bench) zero_size_request empty_world
    = (Ok {| data := ErrorBody "Search failed" (Some ZeroDivisionError);
             status := 500 |}, w') ∧
    sent w' = [ReqSearch "programs"
                 (build_search_body zero_size_request "coffee" 1 0)].
Proof.
  split; [reflexivity|]. split; [reflexivity|].
  destruct (C10_bad_page_size_is_server_error (P := bench)
              zero_size_request empty_world "coffee" eq_refl eq_refl)
    as (Hzero & _ & _).
  destruct (Hzero "0" eq_refl eq_refl) as [_ Hdiv].
  exact (Hdiv 1 bench_response eq_refl eq_refl eq_refl).
Defined.

(** The runs the spec names, evaluated. *)
Example search_page_2_of_25 :
  (get (P := bench) paged_request empty_world).1
  = Ok {| data := PageBody
            {| pd_query := "coffee"; pd_total := 25; pd_page := 2;
               pd_page_size := 10; pd_total_pages := 3; pd_results := [];
               pd_took := JNum 5; pd_aggregations := JDict [];
               pd_filters_applied :=
                 FiltersApplied None None None None None None None None
                   "_score" "desc" |};
          status := 200 |}.
Proof. vm_compute. reflexivity. Qed.

Example search_with_two_filters :
  ∃ body, sent (exec (get (P := bench) filtered_request) empty_world)
          = [ReqSearch "programs" body] ∧
          sb_filter body = [Term "category" "Technology"; Term "language" "English"].
Proof. eexists. split; vm_compute; reflexivity. Qed.

Example upsert_then_delete_5 :
  stored (P := bench)
    (exec (consume (P := bench) [upsert_message tag_upsert 5 coffee]) empty_world) 5
  = Some coffee ∧
  stored (P := bench)
    (exec (consume (P := bench)
             [upsert_message tag_upsert 5 coffee; delete_message 5]) empty_world) 5
  = None.
Proof. split; vm_compute; reflexivity. Qed.

Example loop_survives_broker_failure :
  let w := exec (consumer_loop (P := bench)
                   [Poll [upsert_message tag_upsert 5 coffee] (Broken ConnectionError);
                    Poll [] Idle;
                    Poll [upsert_message tag_update 6 coffee] Idle]) empty_world in
  stored (P := bench) w 5 = Some coffee ∧
  stored (P := bench) w 6 = Some coffee ∧
  slept_ms w = 6000.
Proof. split_and!; vm_compute; reflexivity. Qed.

Example messages_after_unknown_are_processed :
  stored (P := bench)
    (exec (consume (P := bench)
             [Dict unknown_event; NotDict OfNull; delete_message 7;
              upsert_message tag_create 6 coffee]) empty_world) 6
  = Some coffee.
Proof. vm_compute. reflexivity. Qed.

(** * More of the consumer *)

Section ConsumerMore.
Context `{P : Platform}.

(** The body the consumer's index has, or would be created with by a
    first write. *)
Lemma operation_of_upsert_dispatch e :
  operation_of e = Some Upsert →
  (op_eq (ev_op e) "upsert" || op_eq (ev_op e) "create"
   || op_eq (ev_op e) "update")%bool = true.
Proof. unfold operation_of. destruct (_ || _)%bool; [done|]. by destruct (op_eq _ _). Qed.

Lemma operation_of_delete_dispatch e :
  operation_of e = Some Delete →
  (op_eq (ev_op e) "upsert" || op_eq (ev_op e) "create"
   || op_eq (ev_op e) "update")%bool = false ∧
  op_eq (ev_op e) "delete" = true.
Proof. unfold operation_of. destruct (_ || _)%bool; [done|]. by destruct (op_eq _ _). Qed.

(** What a message leaves of the world outside the cluster and the log:
    the console and the clock are not touched, and at most one request is
    sent, a write or a delete on the consumer's index. *)
Lemma process_message_frame m w :
  console (exec (process_message m) w) = console w ∧
  slept_ms (exec (process_message m) w) = slept_ms w ∧
  (sent (exec (process_message m) w) = sent w ∨
   (∃ id body, sent (exec (process_message m) w)
               = (sent w ++ [ReqIndex INDEX_NAME id body])%list) ∨
   (∃ i, sent (exec (process_message m) w)
         = (sent w ++ [ReqDelete INDEX_NAME i])%list)).
Proof.
  unfold process_message, handle_upsert, handle_delete, client_index, client_delete.
  destruct m as [e|v]; run; [|by split_and!; [..|left]].
  destruct (_ || _)%bool.
  - destruct (accepts _ _); simpl; split_and!; try done; right; left; by eexists _, _.
  - destruct (op_eq _ "delete"); simpl; [|by split_and!; [..|left]].
    destruct (ev_program_id e) as [i|]; simpl; [|by split_and!; [..|left]].
    destruct (cluster w !! INDEX_NAME) as [ix|]; simpl.
    + destruct (idx_docs ix !! i) as [doc|]; simpl;
        [destruct (delete_error _ _ _); simpl|];
        split_and!; try done; right; right; by eexists.
    + split_and!; try done; right; right; by eexists.
Qed.

Lemma consume_app xs ys w :
  consume (xs ++ ys) w = consume ys (exec (consume xs) w).
Proof.
  revert w. induction xs as [|x xs IH]; intros w; [done|].
  rewrite <- app_comm_cons, consume_cons, IH, exec_consume_cons. done.
Qed.

Lemma consume_slept msgs w :
  slept_ms (exec (consume msgs) w) = slept_ms w.
Proof.
  revert w. induction msgs as [|m rest IH]; intros w; [done|].
  rewrite exec_consume_cons, IH. apply process_message_frame.
Qed.

Lemma consumer_loop_cons p rest w :
  consumer_loop (p :: rest) w = consumer_loop rest (exec (consumer_turn p) w).
Proof.
  destruct (consumer_turn_run p w) as [Hr _].
  unfold consumer_loop, exec. simpl. unfold mbind, M_bind.
  destruct (consumer_turn p w) as [[[]|] ?]; simpl in *; congruence.
Qed.

End ConsumerMore.


Section ConsumerExtras.
Context `{P : Platform}.

(** X1. The payload of an upsert that the engine takes is what a lookup of
    the entity returns from then on, whatever came before it in the stream,
    until a later upsert or delete of the same entity; an event without a
    payload key stores the empty document. *)
Theorem upsert_visible_until_next_event
    (pre post : list message) (e : event) (i : Z) (w : world) :
  operation_of e = Some Upsert →
  ev_program_id e = Some i →
  accepts (index_body_of (cluster w)) (default ∅ (ev_payload e)) = true →
  last_applied i post = None →
  stored (exec (consume (pre ++ Dict e :: post)) w) i
  = Some (default ∅ (ev_payload e)).
Proof.
  intros Hop Hid Hacc Hpost.
  rewrite stored_after_consume, key_run_app, key_run_cons.
  rewrite (key_run_untouched _ _ _ _ Hpost). unfold key_effect.
  rewrite decide_True by done. by rewrite Hop, Hacc.
Qed.

(** X2. A write that the engine refuses does not stop the consumer and
    changes nothing in the cluster: the request was sent, the refusal is
    logged as an error, and the dispatch returns. *)
Theorem rejected_upsert_is_skipped (e : event) (w : world) :
  operation_of e = Some Upsert →
  accepts (index_body_of (cluster w)) (default ∅ (ev_payload e)) = false →
  ∃ w',
    process_message (Dict e) w = (Ok tt, w') ∧
    cluster w' = cluster w ∧
    sent w' = (sent w ++ [ReqIndex INDEX_NAME (ev_program_id e)
                            (default ∅ (ev_payload e))])%list ∧
    logged w' = (logged w ++
                 [(INFO, ReceivedMessage (Dict e));
                  (ERROR, ErrorIndexingProgram (ev_program_id e) RequestError)])%list.
Proof.
  intros Hop Hrej. apply operation_of_upsert_dispatch in Hop.
  unfold index_body_of in Hrej.
  unfold process_message, handle_upsert, client_index. run.
  rewrite Hop. simpl. rewrite Hrej. simpl.
  eexists. split; [reflexivity|]. simpl.
  split_and!; try done. by rewrite <- app_assoc.
Qed.

(** X3. A delete of an entity that has a document touches that document
    and nothing else: one delete request is sent, the other entities keep
    their documents, the documents without an id and the body of the index
    stay, and the dispatch returns. When the engine carries the delete out,
    the document is gone and the removal is logged as information; when the
    engine fails it, the failure is caught and logged as a warning, and the
    cluster is as it was, the document included. *)
Theorem delete_touches_only_its_document
    (e : event) (i : Z) (d : document) (w : world) :
  operation_of e = Some Delete →
  ev_program_id e = Some i →
  stored w i = Some d →
  ∃ w',
    process_message (Dict e) w = (Ok tt, w') ∧
    (∀ j, j ≠ i → stored w' j = stored w j) ∧
    orphans w' = orphans w ∧
    index_body_of (cluster w') = index_body_of (cluster w) ∧
    sent w' = (sent w ++ [ReqDelete INDEX_NAME i])%list ∧
    match delete_error (index_body_of (cluster w)) i d with
    | None =>
        stored w' i = None ∧
        logged w' = (logged w ++ [(INFO, ReceivedMessage (Dict e));
                                  (INFO, DeletedProgram (Some i))])%list
    | Some err =>
        stored w' i = Some d ∧
        cluster w' = cluster w ∧
        logged w' = (logged w ++ [(INFO, ReceivedMessage (Dict e));
                                  (WARNING, DeleteFailed (Some i) err)])%list
    end.
Proof.
  intros Hop Hid Hd.
  pose proof (process_message_returns (Dict e) w) as Hr.
  pose proof (process_message_cluster (Dict e) w) as Hc.
  exists (exec (process_message (Dict e)) w).
  assert (∀ j, stored (exec (process_message (Dict e)) w) j
               = key_effect (index_body_of (cluster w)) j (Dict e) (stored w j))
    as Hdocs by (intros j; apply stored_after_message).
  split_and!.
  - unfold exec. destruct (process_message (Dict e) w) as [[[]|] ?]; simpl in *; congruence.
  - intros j Hj. rewrite Hdocs. unfold key_effect.
    rewrite decide_False; [done|congruence].
  - apply orphans_message. intros e' [= <-] Hop'. congruence.
  - rewrite Hc. apply message_effect_body.
  - apply operation_of_delete_dispatch in Hop as [Hu Hdel]. unfold stored in Hd.
    unfold process_message, handle_delete, client_delete. run.
    rewrite Hu, Hdel, Hid. simpl.
    destruct (cluster w !! INDEX_NAME) as [ix|]; simpl in *; [|done].
    rewrite Hd. simpl. destruct (delete_error _ _ _); simpl; by rewrite <- ?app_assoc.
  - assert (stored (exec (process_message (Dict e)) w) i
            = after_delete (index_body_of (cluster w)) i (Some d)) as Hi.
    { rewrite Hdocs. unfold key_effect. rewrite decide_True by done.
      by rewrite Hop, Hd. }
    simpl in Hi.
    apply operation_of_delete_dispatch in Hop as [Hu Hdel]. unfold stored in Hd.
    unfold index_body_of in *.
    destruct (cluster w !! INDEX_NAME) as [ix|] eqn:Hix; simpl in *; [|done].
    destruct (delete_error (idx_body ix) i d) as [err|] eqn:Herr.
    + split; [exact Hi|].
      unfold process_message, handle_delete, client_delete. run.
      rewrite Hu, Hdel, Hid. simpl. rewrite Hix. simpl. rewrite Hd. simpl.
      rewrite Herr. simpl. split; [done|]. by rewrite <- ?app_assoc.
    + split; [exact Hi|].
      unfold process_message, handle_delete, client_delete. run.
      rewrite Hu, Hdel, Hid. simpl. rewrite Hix. simpl. rewrite Hd. simpl.
      rewrite Herr. simpl. by rewrite <- ?app_assoc.
Qed.

(** X4. The document of an entity is changed only by upserts and deletes
    that name it: events of other entities, events without an id, unknown
    operations and messages that are not objects leave it as it was, over
    any run of the loop. *)
Theorem other_events_leave_document (polls : list poll) (i : Z) (w : world) :
  last_applied i (stream polls) = None →
  stored (exec (consumer_loop polls) w) i = stored w i.
Proof.
  intros Hnone.
  transitivity (stored (exec (consume (stream polls)) w) i).
  - unfold stored. by rewrite consumer_loop_as_consume.
  - by apply stored_untouched.
Qed.

(** X5. Whatever the message, the dispatch returns and sends at most one
    request to the engine, a write or a delete on the consumer's index; it
    never sleeps, never writes to the console and never asks for a search
    or for a change of an index. *)
Theorem dispatch_sends_at_most_one_request (m : message) (w : world) :
  ∃ w',
    process_message m w = (Ok tt, w') ∧
    console w' = console w ∧
    slept_ms w' = slept_ms w ∧
    (sent w' = sent w ∨
     (∃ id body, sent w' = (sent w ++ [ReqIndex INDEX_NAME id body])%list) ∨
     (∃ i, sent w' = (sent w ++ [ReqDelete INDEX_NAME i])%list)).
Proof.
  pose proof (process_message_returns m w) as Hr.
  pose proof (process_message_frame m w) as Hf. unfold exec in Hf.
  destruct (process_message m w) as [[[]|] w']; simpl in *; [|done].
  by exists w'.
Qed.

Lemma exec_consumer_loop_cons p rest w :
  exec (consumer_loop (p :: rest)) w
  = exec (consumer_loop rest) (exec (consumer_turn p) w).
Proof. unfold exec at 1 2. by rewrite consumer_loop_cons. Qed.

(** X6. The loop can be cut anywhere: going through the polls [ps] and then
    through [qs] is going through [ps ++ qs]. No poll, no message and no
    failure of the broker keeps the later polls from being handled. *)
Theorem loop_resumes_where_it_stopped (ps qs : list poll) (w : world) :
  consumer_loop (ps ++ qs) w = consumer_loop qs (exec (consumer_loop ps) w).
Proof.
  revert w. induction ps as [|p ps IH]; intros w; [done|].
  rewrite <- app_comm_cons, consumer_loop_cons, IH.
  by rewrite exec_consumer_loop_cons.
Qed.

Lemma consumer_turn_slept p w :
  slept_ms (exec (consumer_turn p) w) = slept_ms w + pause_ms p.
Proof.
  pose proof (consume_returns (delivered p) w) as Hr.
  pose proof (consume_slept (delivered p) w) as Hs.
  unfold consumer_turn, pause_ms. run.
  destruct (consume (delivered p) w) as [[[]|] w1]; simpl in *; [|done].
  destruct (ending p); simpl; by rewrite Hs.
Qed.

(** X7. The time the loop sleeps is half a second for each poll that ended
    idle and five seconds for each poll the broker failed on; handling
    messages adds nothing. *)
Theorem loop_sleep_accounting (polls : list poll) (w : world) :
  slept_ms (exec (consumer_loop polls) w) = slept_ms w + total_pause_ms polls.
Proof.
  revert w. induction polls as [|p rest IH]; intros w.
  - unfold exec, total_pause_ms. simpl. lia.
  - rewrite exec_consumer_loop_cons, IH, consumer_turn_slept.
    change (total_pause_ms (p :: rest)) with (pause_ms p + total_pause_ms rest).
    lia.
Qed.

(** X8. A failure of the broker in the middle of a poll loses nothing of
    what was delivered before it: the messages are applied, the failure is
    logged as an error after them, and the turn returns. *)
Theorem broker_failure_keeps_delivered (msgs : list message) (e : exn) (w : world) :
  ∃ w',
    consumer_turn (Poll msgs (Broken e)) w = (Ok tt, w') ∧
    cluster w' = cluster (exec (consume msgs) w) ∧
    sent w' = sent (exec (consume msgs) w) ∧
    logged w' = (logged (exec (consume msgs) w) ++ [(ERROR, ConsumerError e)])%list.
Proof.
  pose proof (consume_returns msgs w) as Hr.
  unfold consumer_turn. run.
  destruct (consume msgs w) as [[[]|] w1]; simpl in *; [|done].
  by eexists.
Qed.

(** X9. The consumer never touches another index and never changes the
    body of its own: after any run of the loop every other index is as it
    was, an index that was there is still there with the body it had, and
    an index that was not there is there only if a write was taken. *)
Theorem loop_keeps_index_bodies (polls : list poll) (w : world) :
  let w' := exec (consumer_loop polls) w in
  (∀ name, name ≠ INDEX_NAME → cluster w' !! name = cluster w !! name) ∧
  (∀ ix, cluster w !! INDEX_NAME = Some ix →
     ∃ ix', cluster w' !! INDEX_NAME = Some ix' ∧ idx_body ix' = idx_body ix) ∧
  (cluster w !! INDEX_NAME = None →
   is_Some (cluster w' !! INDEX_NAME) →
   ∃ m, m ∈ stream polls ∧ taken (JDict []) m = true).
Proof.
  simpl. destruct (consumer_loop_run polls w) as [_ ->].
  split_and!.
  - intros name Hne. by apply stream_effect_other.
  - intros ix Hix.
    pose proof (stream_effect_body (stream polls) (cluster w)) as Hb.
    pose proof (stream_effect_present (stream polls) (cluster w)) as [_ Hp].
    destruct Hp as [ix' Hix']; [left; by eauto|].
    exists ix'. split; [done|].
    unfold index_body_of in Hb. by rewrite Hix, Hix' in Hb.
  - intros Hnone Hsome.
    apply stream_effect_present in Hsome as [[? Hs]|Hm]; [congruence|].
    unfold index_body_of in Hm. by rewrite Hnone in Hm.
Qed.


End ConsumerExtras.

(** * The start of the consumer *)

Section StartupFacts.
Context `{P : Platform}.

Lemma slept_app xs ys : slept (xs ++ ys) = slept xs + slept ys.
Proof.
  unfold slept. induction xs as [|x xs IH]; [done|]. simpl.
  rewrite IH. destruct x; lia.
Qed.

Lemma health_requests_app xs ys :
  health_requests (xs ++ ys) = (health_requests xs + health_requests ys)%nat.
Proof. unfold health_requests. by rewrite List.filter_app, length_app. Qed.

Lemma attempt_once_run max_retries attempt reply :
  (attempt_once max_retries attempt reply).1 = attempt_ready reply ∧
  slept (attempt_once max_retries attempt reply).2 = 0 ∧
  health_requests (attempt_once max_retries attempt reply).2
  = match indexer_client with Ok _ => 1%nat | Raise _ => 0%nat end.
Proof.
  unfold attempt_once, attempt_ready, ready_reply.
  destruct indexer_client; [|done].
  destruct reply as [status|e]; [|done]. by destruct (serving status).
Qed.

Lemma attempt_ready_client reply :
  attempt_ready reply = true → indexer_client = Ok tt.
Proof. unfold attempt_ready. by destruct indexer_client as [[]|]. Qed.

Lemma wait_from_first_ready max_retries retry_delay health :
  ∀ remaining attempt k,
    (attempt + remaining = max_retries)%nat →
    (attempt ≤ k < max_retries)%nat →
    (∀ j, (attempt ≤ j < k)%nat → attempt_ready (health j) = false) →
    attempt_ready (health k) = true →
    (wait_from max_retries retry_delay health remaining attempt).1 = ClientReady ∧
    slept (wait_from max_retries retry_delay health remaining attempt).2
    = Z.of_nat (k - attempt) * retry_delay ∧
    health_requests (wait_from max_retries retry_delay health remaining attempt).2
    = S (k - attempt).
Proof.
  induction remaining as [|r IH]; intros attempt k Hsum Hk Hbefore Hready; [lia|].
  simpl.
  destruct (attempt_once_run max_retries attempt (health attempt)) as (Hr & Hs & Hh).
  destruct (attempt_once max_retries attempt (health attempt)) as [ready steps].
  simpl in *. subst ready.
  destruct (decide (attempt = k)) as [->|Hne].
  - rewrite Hready. simpl. rewrite Hs, Hh, (attempt_ready_client _ Hready).
    replace (k - k)%nat with 0%nat by lia. split_and!; [done|lia|done].
  - rewrite Hbefore by lia.
    destruct (IH (S attempt) k) as (IHr & IHs & IHh); [lia|lia| |done|].
    { intros j Hj. apply Hbefore. lia. }
    destruct (wait_from max_retries retry_delay health r (S attempt)) as [res rest].
    simpl in *.
    replace (attempt <? max_retries - 1)%nat with true
      by (symmetry; apply Nat.ltb_lt; lia).
    rewrite !slept_app, !health_requests_app, Hs, Hh, IHs, IHh.
    rewrite (attempt_ready_client _ Hready).
    replace (k - attempt)%nat with (S (k - S attempt)) by lia.
    rewrite Nat2Z.inj_succ. unfold slept, health_requests. simpl.
    split_and!; [done|lia|lia].
Qed.

Lemma wait_from_never_ready max_retries retry_delay health :
  ∀ remaining attempt,
    (attempt + remaining = max_retries)%nat →
    (∀ j, (attempt ≤ j < max_retries)%nat → attempt_ready (health j) = false) →
    (wait_from max_retries retry_delay health remaining attempt).1 = NeverReady ∧
    slept (wait_from max_retries retry_delay health remaining attempt).2
    = Z.of_nat (remaining - 1) * retry_delay ∧
    health_requests (wait_from max_retries retry_delay health remaining attempt).2
    = match indexer_client with Ok _ => remaining | Raise _ => 0%nat end.
Proof.
  induction remaining as [|r IH]; intros attempt Hsum Hnever.
  - simpl. split_and!; [done|lia|by destruct indexer_client].
  - simpl.
    destruct (attempt_once_run max_retries attempt (health attempt)) as (Hr & Hs & Hh).
    destruct (attempt_once max_retries attempt (health attempt)) as [ready steps].
    simpl in *. subst ready. rewrite Hnever by lia.
    destruct (IH (S attempt)) as (IHr & IHs & IHh); [lia| |].
    { intros j Hj. apply Hnever. lia. }
    destruct (wait_from max_retries retry_delay health r (S attempt)) as [res rest].
    simpl in *.
    rewrite !slept_app, !health_requests_app, Hs, Hh, IHs, IHh.
    destruct (Nat.ltb_spec attempt (max_retries - 1)) as [Hlt|Hge];
      unfold slept, health_requests; simpl.
    + replace (r - 0)%nat with (S (r - 1)) by lia. rewrite Nat2Z.inj_succ.
      split_and!; [done|lia|by destruct indexer_client].
    + replace (r - 0)%nat with 0%nat by lia.
      split_and!; [done|lia|].
      destruct indexer_client; [|done]. lia.
Qed.

Lemma wait_from_ready_iff max_retries retry_delay health :
  ∀ remaining attempt,
    (attempt + remaining = max_retries)%nat →
    (wait_from max_retries retry_delay health remaining attempt).1 = ClientReady
    ↔ ∃ k, (attempt ≤ k < max_retries)%nat ∧ attempt_ready (health k) = true.
Proof.
  induction remaining as [|r IH]; intros attempt Hsum.
  - simpl. split; [done|]. intros (k & Hk & _). lia.
  - simpl.
    destruct (attempt_once_run max_retries attempt (health attempt)) as (Hr & _).
    destruct (attempt_once max_retries attempt (health attempt)) as [ready steps].
    simpl in *. subst ready.
    destruct (attempt_ready (health attempt)) eqn:Ha.
    + simpl. split; [|done]. intros _. exists attempt. split; [lia|done].
    + specialize (IH (S attempt) ltac:(lia)).
      destruct (wait_from max_retries retry_delay health r (S attempt)) as [res rest].
      simpl in *. rewrite IH. split.
      * intros (k & Hk & Hready). exists k. split; [lia|done].
      * intros (k & Hk & Hready). exists k. split; [|done].
        destruct (decide (k = attempt)) as [->|]; [congruence|lia].
Qed.

Lemma wait_for_opensearch_unfold max_retries retry_delay health :
  (wait_for_opensearch max_retries retry_delay health).1
  = (wait_from max_retries retry_delay health max_retries 0).1 ∧
  slept (wait_for_opensearch max_retries retry_delay health).2
  = slept (wait_from max_retries retry_delay health max_retries 0).2 ∧
  health_requests (wait_for_opensearch max_retries retry_delay health).2
  = health_requests (wait_from max_retries retry_delay health max_retries 0).2.
Proof.
  unfold wait_for_opensearch.
  by destruct (wait_from max_retries retry_delay health max_retries 0).
Qed.

Lemma create_index_run w :
  match create_index_if_not_exists w with
  | (Ok _, w1) =>
      is_Some (cluster w1 !! INDEX_NAME) ∧
      (∀ name, name ≠ INDEX_NAME → cluster w1 !! name = cluster w !! name)
  | (Raise e, w1) =>
      cluster w !! INDEX_NAME = None ∧
      create_error INDEX_NAME programs_index_body = Some e ∧
      cluster w1 = cluster w ∧
      logged w1 = (logged w ++ [(ERROR, ErrorCreatingIndex e)])%list
  end.
Proof.
  unfold create_index_if_not_exists, indices_exists, indices_create. run.
  destruct (cluster w !! INDEX_NAME) as [ix|] eqn:Hix.
  - rewrite bool_decide_eq_true_2 by eauto. simpl. rewrite Hix. by eauto.
  - rewrite bool_decide_eq_false_2 by (intros [? ?]; done). simpl.
    rewrite Hix. simpl. destruct (create_error _ _); simpl; [done|].
    rewrite lookup_insert_eq. split; [by eauto|].
    intros name Hne. by rewrite lookup_insert_ne.
Qed.

Lemma wait_first_ready_run max_retries retry_delay health k :
  (k < max_retries)%nat →
  (∀ j, (j < k)%nat → attempt_ready (health j) = false) →
  attempt_ready (health k) = true →
  (wait_for_opensearch max_retries retry_delay health).1 = ClientReady ∧
  slept (wait_for_opensearch max_retries retry_delay health).2
  = Z.of_nat k * retry_delay ∧
  health_requests (wait_for_opensearch max_retries retry_delay health).2 = S k.
Proof.
  intros Hk Hbefore Hready.
  destruct (wait_for_opensearch_unfold max_retries retry_delay health)
    as (-> & -> & ->).
  destruct (wait_from_first_ready max_retries retry_delay health max_retries 0 k)
    as (Hr & Hs & Hh); [lia|lia| |done|].
  { intros j Hj. apply Hbefore. lia. }
  rewrite Hr, Hs, Hh. by rewrite Nat.sub_0_r.
Qed.

Lemma wait_never_ready_run max_retries retry_delay health :
  (∀ j, (j < max_retries)%nat → attempt_ready (health j) = false) →
  (wait_for_opensearch max_retries retry_delay health).1 = NeverReady ∧
  slept (wait_for_opensearch max_retries retry_delay health).2
  = Z.of_nat (max_retries - 1) * retry_delay ∧
  health_requests (wait_for_opensearch max_retries retry_delay health).2
  = match indexer_client with Ok _ => max_retries | Raise _ => 0%nat end.
Proof.
  intros Hall.
  destruct (wait_for_opensearch_unfold max_retries retry_delay health)
    as (-> & -> & ->).
  apply (wait_from_never_ready max_retries retry_delay health max_retries 0);
    [lia|]. intros j Hj. apply Hall. lia.
Qed.

End StartupFacts.

Section StartupExtras.
Context `{P : Platform}.

(** X11. [wait_for_opensearch] returns the client at the first attempt, among
    the [max_retries] it may make, at which the client is built and the
    health status is green or yellow; by then it has sent one health request
    per attempt and slept [retry_delay] once per failed attempt. *)
Theorem wait_returns_at_first_ready
    (max_retries : nat) (retry_delay : Z) (health : nat → health_reply) (k : nat) :
  (k < max_retries)%nat →
  (∀ j, (j < k)%nat → attempt_ready (health j) = false) →
  attempt_ready (health k) = true →
  (wait_for_opensearch max_retries retry_delay health).1 = ClientReady ∧
  slept (wait_for_opensearch max_retries retry_delay health).2
  = Z.of_nat k * retry_delay ∧
  health_requests (wait_for_opensearch max_retries retry_delay health).2 = S k.
Proof. apply wait_first_ready_run. Qed.

(** X12. [wait_for_opensearch] gives up exactly when none of its
    [max_retries] attempts finds the engine serving: a red status, a failed
    health request or a host setting that is not [host:port] all count as
    not ready. It has then slept [retry_delay] between the attempts but not
    after the last one, and has sent a health request per attempt when the
    client could be built, none otherwise. *)
Theorem wait_gives_up_after_budget
    (max_retries : nat) (retry_delay : Z) (health : nat → health_reply) :
  ((wait_for_opensearch max_retries retry_delay health).1 = NeverReady
   ↔ ∀ j, (j < max_retries)%nat → attempt_ready (health j) = false) ∧
  ((wait_for_opensearch max_retries retry_delay health).1 = NeverReady →
   slept (wait_for_opensearch max_retries retry_delay health).2
   = Z.of_nat (max_retries - 1) * retry_delay ∧
   health_requests (wait_for_opensearch max_retries retry_delay health).2
   = match indexer_client with Ok _ => max_retries | Raise _ => 0%nat end).
Proof.
  assert ((wait_for_opensearch max_retries retry_delay health).1 = NeverReady
          → ∀ j, (j < max_retries)%nat → attempt_ready (health j) = false) as Hnone.
  { destruct (wait_for_opensearch_unfold max_retries retry_delay health) as (-> & _).
    pose proof (wait_from_ready_iff max_retries retry_delay health max_retries 0
                  ltac:(lia)) as [_ Hiff].
    intros Hn j Hj. destruct (attempt_ready (health j)) eqn:Hr; [|done].
    rewrite Hiff in Hn; [done|]. exists j. split; [lia|done]. }
  split.
  - split; [exact Hnone|]. intros Hall. by apply wait_never_ready_run.
  - intros Hn. apply wait_never_ready_run. by apply Hnone.
Qed.

(** X13. When the engine is not serving at any of the sixty attempts,
    [run_consumer] exits with code 1 after logging the failure: it has slept
    59 times 5 seconds, the world is as it was (no index is created, no
    message is consumed), whatever the broker holds. *)
Theorem run_consumer_exits_when_engine_never_ready
    (health : nat → health_reply) (kafka : outcome unit) (polls : list poll)
    (w : world) :
  (∀ j, (j < 60)%nat → attempt_ready (health j) = false) →
  ∃ steps,
    run_consumer health kafka polls w = (Exit 1, steps, w) ∧
    slept steps = 295 ∧
    last steps = Some (BootLog ERROR (FailedToConnect (NotReadyAfter 60))).
Proof.
  intros Hnever.
  destruct (wait_never_ready_run 60 5 health Hnever) as (Hgive & Hs & _).
  unfold run_consumer.
  destruct (wait_for_opensearch 60 5 health) as [res steps].
  simpl in Hgive, Hs. subst res.
  eexists. split; [reflexivity|]. split.
  - rewrite !slept_app, Hs. unfold slept. simpl. lia.
  - rewrite app_assoc. apply last_snoc.
Qed.

(** X14. When the engine is first found serving at attempt [k] of the
    sixty, [run_consumer] runs the schema manager before anything is
    consumed. When the schema manager raises, [run_consumer] logs the
    failure and exits with code 1: the cluster is as it was, the consumer is
    not built and no message is consumed. When it returns, [run_consumer]
    waits 15 seconds for the broker: if the consumer cannot be built the
    error escapes with the index in place and no message consumed;
    otherwise the loop runs on the world the schema manager left, and the
    index is there at the end of any run. *)
Theorem run_consumer_runs_schema_manager_before_consuming
    (health : nat → health_reply) (kafka : outcome unit) (polls : list poll)
    (w : world) (k : nat) :
  (k < 60)%nat →
  (∀ j, (j < k)%nat → attempt_ready (health j) = false) →
  attempt_ready (health k) = true →
  ∃ steps w',
    health_requests steps = S k ∧
    match create_index_if_not_exists w with
    | (Raise e, w1) =>
        run_consumer health kafka polls w = (Exit 1, steps, w') ∧
        w' = w1 ∧
        cluster w' = cluster w ∧
        slept steps = Z.of_nat k * 5 ∧
        last steps = Some (BootLog ERROR (FailedToConnect (SchemaManagerFailed e)))
    | (Ok _, w1) =>
        run_consumer health kafka polls w
        = (match kafka with Ok _ => StillConsuming | Raise e => Uncaught e end,
           steps, w') ∧
        w' = match kafka with
             | Ok _ => exec (consumer_loop polls) w1
             | Raise _ => w1
             end ∧
        is_Some (cluster w' !! INDEX_NAME) ∧
        slept steps = Z.of_nat k * 5 + 15
    end.
Proof.
  intros Hk Hbefore Hready.
  destruct (wait_first_ready_run 60 5 health k Hk Hbefore Hready)
    as (Hr & Hs & Hh).
  pose proof (create_index_run w) as Hcreate.
  unfold run_consumer.
  destruct (wait_for_opensearch 60 5 health) as [res steps].
  simpl in Hr, Hs, Hh. subst res.
  destruct (create_index_if_not_exists w) as [[[]|e] w1].
  - destruct Hcreate as [Hsome _].
    destruct (consumer_loop_run polls w1) as [Hloop Hcluster].
    unfold exec in *.
    destruct kafka as [[]|e].
    + destruct (consumer_loop polls w1) as [[[]|] w2] eqn:Hl; [|done].
      cbn [snd] in Hcluster.
      eexists _, _. split; [|split; [reflexivity|]; split_and!; [done| |]].
      * rewrite !health_requests_app, Hh. unfold health_requests. simpl. lia.
      * rewrite Hcluster. apply stream_effect_present. by left.
      * rewrite !slept_app, Hs. unfold slept. simpl. lia.
    + eexists _, _. split; [|split; [reflexivity|]; split_and!; [done|done|]].
      * rewrite !health_requests_app, Hh. unfold health_requests. simpl. lia.
      * rewrite !slept_app, Hs. unfold slept. simpl. lia.
  - destruct Hcreate as (_ & _ & Hcluster & _).
    eexists _, _. split; [|split; [reflexivity|]; split_and!; [done|done| |]].
    + rewrite !health_requests_app, Hh. unfold health_requests. simpl. lia.
    + rewrite !slept_app, Hs. unfold slept. simpl. lia.
    + rewrite app_assoc. apply last_snoc.
Qed.

End StartupExtras.

(** * More of the schema manager and of the command *)

Section SchemaExtras.
Context `{P : Platform}.

#[local] Arguments get_client : simpl never.

Lemma create_index_cluster w :
  (create_index_if_not_exists w).1
  = match cluster w !! INDEX_NAME, create_error INDEX_NAME programs_index_body with
    | None, Some e => Raise e
    | _, _ => Ok tt
    end ∧
  cluster (exec create_index_if_not_exists w)
  = match cluster w !! INDEX_NAME, create_error INDEX_NAME programs_index_body with
    | None, None => <[INDEX_NAME := new_index programs_index_body]> (cluster w)
    | _, _ => cluster w
    end ∧
  sent (exec create_index_if_not_exists w)
  = (sent w ++ ReqExists INDEX_NAME ::
       match cluster w !! INDEX_NAME with
       | Some _ => []
       | None => [ReqCreate INDEX_NAME programs_index_body]
       end)%list ∧
  logged (exec create_index_if_not_exists w)
  = (logged w ++
       match cluster w !! INDEX_NAME, create_error INDEX_NAME programs_index_body with
       | Some _, _ => [(INFO, IndexAlreadyExists INDEX_NAME)]
       | None, None => [(INFO, CreatedIndex INDEX_NAME)]
       | None, Some e => [(ERROR, ErrorCreatingIndex e)]
       end)%list.
Proof.
  unfold create_index_if_not_exists, indices_exists, indices_create. run.
  destruct (cluster w !! INDEX_NAME) as [ix|] eqn:Hix.
  - rewrite bool_decide_eq_true_2 by eauto. done.
  - rewrite bool_decide_eq_false_2 by (intros [? ?]; done). simpl.
    rewrite Hix. simpl.
    destruct (create_error _ _); simpl; split_and!; try done;
      by rewrite <- app_assoc.
Qed.

Lemma command_cluster mapping w :
  get_client w = (Ok tt, w) →
  match create_error COMMAND_INDEX_NAME mapping with
  | None =>
      Command_handle (FileJson mapping) w
      = (Ok tt, exec (Command_handle (FileJson mapping)) w) ∧
      cluster (exec (Command_handle (FileJson mapping)) w)
      = <[COMMAND_INDEX_NAME := new_index mapping]> (cluster w)
  | Some e =>
      Command_handle (FileJson mapping) w
      = (Raise e, exec (Command_handle (FileJson mapping)) w) ∧
      cluster (exec (Command_handle (FileJson mapping)) w)
      = delete COMMAND_INDEX_NAME (cluster w)
  end.
Proof.
  intros Hclient.
  unfold Command_handle, indices_exists, indices_create, indices_delete. run.
  rewrite Hclient. simpl.
  destruct (cluster w !! COMMAND_INDEX_NAME) as [ix|] eqn:Hix.
  - rewrite bool_decide_eq_true_2 by eauto. simpl. rewrite Hix. simpl.
    rewrite lookup_delete_eq. simpl.
    destruct (create_error _ _); simpl; [done|].
    split; [done|]. apply insert_delete_eq.
  - rewrite bool_decide_eq_false_2 by (intros [? ?]; done). simpl.
    rewrite Hix. simpl.
    destruct (create_error _ _); simpl; [|done].
    split; [done|]. symmetry. by apply delete_id.
Qed.

Lemma get_client_frame w :
  get_client w = (Ok tt, w) → ∀ w', get_client w' = (Ok tt, w').
Proof.
  unfold get_client.
  destruct (split _ _) as [|? [|port [|? ?]]]; try done.
  by destruct (py_int port).
Qed.


(** X16. When the command and the consumer name the same index and the
    client of the command is built, the mapping of the command's file wins
    in either order, where the engine carries out the creation of an index
    from the file: run after the schema manager, the command replaces the
    index the manager made; run before it, the manager finds the index and
    leaves the file's mapping in place. Running the command twice leaves
    what running it once does. In each case the index ends with the body of
    the file and no document. Where the engine does not carry that creation
    out, the command raises, run first or after the schema manager, and
    leaves the cluster without the index, so without any of its
    documents. *)
Theorem command_mapping_wins (mapping : json) (w : world) :
  COMMAND_INDEX_NAME = INDEX_NAME →
  get_client w = (Ok tt, w) →
  let fresh := <[INDEX_NAME := new_index mapping]> (cluster w) in
  match create_error INDEX_NAME mapping with
  | None =>
      cluster (exec (Command_handle (FileJson mapping))
                 (exec create_index_if_not_exists w)) = fresh ∧
      cluster (exec create_index_if_not_exists
                 (exec (Command_handle (FileJson mapping)) w)) = fresh ∧
      cluster (exec (Command_handle (FileJson mapping))
                 (exec (Command_handle (FileJson mapping)) w)) = fresh ∧
      ∀ i, stored (exec (Command_handle (FileJson mapping)) w) i = None
  | Some e =>
      (Command_handle (FileJson mapping) w).1 = Raise e ∧
      cluster (exec (Command_handle (FileJson mapping)) w)
      = delete INDEX_NAME (cluster w) ∧
      (Command_handle (FileJson mapping) (exec create_index_if_not_exists w)).1
      = Raise e ∧
      cluster (exec (Command_handle (FileJson mapping))
                 (exec create_index_if_not_exists w))
      = delete INDEX_NAME (cluster w) ∧
      ∀ i, stored (exec (Command_handle (FileJson mapping)) w) i = None
  end.
Proof.
  intros Hname Hclient. cbv zeta.
  pose proof (get_client_frame w Hclient) as Hany.
  destruct (create_index_cluster w) as (_ & Hc1 & _).
  pose proof (command_cluster mapping w Hclient) as Hk.
  pose proof (command_cluster mapping (exec create_index_if_not_exists w) (Hany _))
    as Hk1.
  pose proof (command_cluster mapping (exec (Command_handle (FileJson mapping)) w)
                (Hany _)) as Hk2.
  rewrite Hname in Hk, Hk1, Hk2.
  destruct (create_error INDEX_NAME mapping) as [e|].
  - destruct Hk as [Hr Hk], Hk1 as [Hr1 Hk1]. split_and!.
    + by rewrite Hr.
    + exact Hk.
    + by rewrite Hr1.
    + rewrite Hk1, Hc1. destruct (cluster w !! INDEX_NAME); [done|].
      destruct (create_error INDEX_NAME programs_index_body); [done|].
      apply delete_insert_eq.
    + intros i. unfold stored. rewrite Hk, lookup_delete_eq. done.
  - destruct Hk as [_ Hk], Hk1 as [_ Hk1], Hk2 as [_ Hk2]. split_and!.
    + rewrite Hk1, Hc1. destruct (cluster w !! INDEX_NAME); [done|].
      destruct (create_error INDEX_NAME programs_index_body); [done|].
      apply insert_insert_eq.
    + destruct (create_index_cluster (exec (Command_handle (FileJson mapping)) w))
        as (_ & -> & _).
      rewrite Hk, lookup_insert_eq. done.
    + rewrite Hk2, Hk. apply insert_insert_eq.
    + intros i. unfold stored. rewrite Hk, lookup_insert_eq. simpl.
      apply lookup_empty.
Qed.

End SchemaExtras.

(** * More of the search view *)

Section ViewFacts.
Context `{P : Platform}.

Lemma reshape_run h w :
  (∃ r, reshape h w = (Ok r, w) ∧ r.*1 = result_keys ∧ is_Some (hit_source h)) ∨
  (reshape h w = (Raise KeyError, w) ∧ hit_source h = None).
Proof.
  unfold reshape. destruct (hit_source h) as [src|]; [|by right].
  left. eexists. split; [reflexivity|]. split; [reflexivity|by eauto].
Qed.

Lemma reshape_all_total hits w :
  (∃ rs, reshape_all hits w = (Ok rs, w) ∧
         length rs = length hits ∧
         Forall (λ r : list (string * json), r.*1 = result_keys) rs ∧
         Forall (λ h, is_Some (hit_source h)) hits) ∨
  (reshape_all hits w = (Raise KeyError, w) ∧
   ∃ h, h ∈ hits ∧ hit_source h = None).
Proof.
  induction hits as [|h rest IH].
  - left. exists []. by split_and!.
  - simpl. run.
    destruct (reshape_run h w) as [(r & -> & Hk & Hs) | (-> & Hn)]; simpl.
    + destruct IH as [(rs & -> & Hlen & Hkeys & Hsrcs) | (-> & h' & Hin & Hnone)];
        simpl.
      * left. eexists. split; [reflexivity|]. simpl. split_and!.
        -- by rewrite Hlen.
        -- by constructor.
        -- by constructor.
      * right. split; [done|]. exists h'. split; [by right|done].
    + right. split; [done|]. exists h. split; [left|done].
Qed.

Lemma split_aux_length sep cur s :
  length (split_aux sep cur s) = S (occurrences sep s).
Proof.
  revert cur. induction s as [|a r IH]; intros cur; [done|]. simpl.
  destruct (Ascii.eqb a sep); simpl; by rewrite IH.
Qed.

Lemma range_in_term_filter f lo hi field v :
  Range f lo hi ∈ term_filter field v ↔ False.
Proof.
  unfold term_filter. destruct v as [[|??]|]; simpl;
    rewrite ?elem_of_nil, ?list_elem_of_singleton; by split.
Qed.

Lemma range_in_range_filter f lo hi field a b :
  Range f lo hi ∈ range_filter field a b
  ↔ f = field ∧ (truthy a || truthy b)%bool = true ∧ lo = bound a ∧ hi = bound b.
Proof.
  unfold range_filter. destruct (truthy a || truthy b)%bool.
  - rewrite list_elem_of_singleton. split; [by intros [= -> -> ->]|].
    by intros (-> & _ & -> & ->).
  - rewrite elem_of_nil. split; [done|]. by intros (_ & ? & _).
Qed.

Lemma range_in_tags_filter f lo hi tags :
  Range f lo hi ∈ tags_filter tags ↔ False.
Proof.
  unfold tags_filter. destruct tags as [[|??]|]; simpl;
    rewrite ?elem_of_nil, ?list_elem_of_singleton; by split.
Qed.

Lemma terms_in_term_filter f vs field v :
  Terms f vs ∈ term_filter field v ↔ False.
Proof.
  unfold term_filter. destruct v as [[|??]|]; simpl;
    rewrite ?elem_of_nil, ?list_elem_of_singleton; by split.
Qed.

Lemma terms_in_range_filter f vs field a b :
  Terms f vs ∈ range_filter field a b ↔ False.
Proof.
  unfold range_filter. destruct (truthy a || truthy b)%bool;
    rewrite ?elem_of_nil, ?list_elem_of_singleton; by split.
Qed.

Lemma terms_in_tags_filter f vs tags :
  Terms f vs ∈ tags_filter tags
  ↔ f = "metadata.tags" ∧
    ∃ s, tags = Some s ∧ s ≠ "" ∧ vs = strip <$> split "," s.
Proof.
  unfold tags_filter. destruct tags as [[|a s]|]; cbn [is_empty];
    rewrite ?elem_of_nil, ?list_elem_of_singleton.
  - split; [done|]. by intros (_ & s & [= <-] & ? & _).
  - split.
    + intros [= -> ->]. split; [done|]. by eexists.
    + by intros (-> & s' & [= <-] & _ & ->).
  - split; [done|]. by intros (_ & s & ? & _).
Qed.

Lemma filter_lengths field v a b tags :
  (length (term_filter field v) ≤ 1)%nat ∧
  (length (range_filter field a b) ≤ 1)%nat ∧
  (length (tags_filter tags) ≤ 1)%nat.
Proof.
  unfold term_filter, range_filter, tags_filter.
  destruct v as [[|??]|], (truthy a || truthy b)%bool, tags as [[|??]|];
    simpl; lia.
Qed.

End ViewFacts.

Section ViewExtras.
Context `{P : Platform}.

#[local] Arguments build_search_body : simpl never.
#[local] Arguments get_opensearch_client : simpl never.
#[local] Arguments int_param : simpl never.
#[local] Arguments reshape_all : simpl never.

Ltac reshape_cases :=
  match goal with
  | |- context [reshape_all ?hits ?W] =>
      destruct (reshape_all_total hits W)
        as [(?rs & -> & ?Hlen & ?Hkeys & ?Hsrcs) | (-> & ?h & ?Hin & ?Hnone)]
  end.

(** X17. The view answers every request: it never raises, its status is
    400, 200 or 500, and it changes nothing in the cluster. A 400 is given
    exactly for a missing or empty [q], with nothing sent or logged; a 200
    comes with one search sent on the index [programs]; a 500 comes with
    the error logged and at most that one search sent. *)
Theorem search_view_always_responds (GET : gmap string string) (w : world) :
  ∃ (r : Response) (w' : world),
    get GET w = (Ok r, w') ∧
    cluster w' = cluster w ∧
    ((status r = 400 ∧ is_empty (default "" (GET !! "q")) = true ∧ w' = w) ∨
     (status r = 200 ∧ is_empty (default "" (GET !! "q")) = false ∧
      (∃ d, data r = PageBody d) ∧
      (∃ body, sent w' = (sent w ++ [ReqSearch "programs" body])%list) ∧
      logged w' = logged w) ∨
     (status r = 500 ∧ is_empty (default "" (GET !! "q")) = false ∧
      (∃ e, data r = ErrorBody "Search failed" (Some e) ∧
            logged w' = (logged w ++ [(ERROR, SearchError e)])%list) ∧
      (sent w' = sent w ∨
       ∃ body, sent w' = (sent w ++ [ReqSearch "programs" body])%list))).
Proof.
  unfold get. destruct (is_empty (default "" (GET !! "q"))) eqn:Hq.
  { eexists _, _. split; [reflexivity|]. split; [done|]. by left. }
  unfold client_search, floordiv. run.
  destruct (get_opensearch_client_run w) as [-> | ->]; simpl.
  2: { eexists _, _. split; [reflexivity|]. simpl. split; [done|].
       right; right. split_and!; [done|done|by eexists|by left]. }
  destruct (int_param_cases GET "page" 1 w) as [[page ->] | ->]; simpl.
  2: { eexists _, _. split; [reflexivity|]. simpl. split; [done|].
       right; right. split_and!; [done|done|by eexists|by left]. }
  destruct (int_param_cases GET "page_size" 20 w) as [[size ->] | ->]; simpl.
  2: { eexists _, _. split; [reflexivity|]. simpl. split; [done|].
       right; right. split_and!; [done|done|by eexists|by left]. }
  destruct (run_search _ _ _) as [response|e]; simpl.
  2: { eexists _, _. split; [reflexivity|]. simpl. split; [done|].
       right; right. split_and!; [done|done|by eexists|right; by eexists]. }
  destruct (Z.min size 100 =? 0); simpl.
  { eexists _, _. split; [reflexivity|]. simpl. split; [done|].
    right; right. split_and!; [done|done|by eexists|right; by eexists]. }
  reshape_cases; simpl.
  - eexists _, _. split; [reflexivity|]. simpl. split; [done|].
    right; left. split_and!; [done|done|by eexists|by eexists|done].
  - eexists _, _. split; [reflexivity|]. simpl. split; [done|].
    right; right. split_and!; [done|done|by eexists|right; by eexists].
Qed.

(** X18. When the engine fails on the search, the view answers 500 with
    the failure as details, after the search was sent and with the failure
    logged as an error. *)
Theorem backend_failure_is_reported (GET : gmap string string) (w : world)
    (query : string) (page size : Z) (e : exn) :
  GET !! "q" = Some query →
  is_empty query = false →
  get_opensearch_client w = (Ok tt, w) →
  int_param GET "page" 1 w = (Ok page, w) →
  int_param GET "page_size" 20 w = (Ok size, w) →
  run_search (cluster w) "programs"
    (build_search_body GET query page (Z.min size 100)) = Raise e →
  ∃ w',
    get GET w = (Ok {| data := ErrorBody "Search failed" (Some e);
                       status := 500 |}, w') ∧
    sent w' = (sent w ++ [ReqSearch "programs"
                            (build_search_body GET query page (Z.min size 100))])%list ∧
    logged w' = (logged w ++ [(ERROR, SearchError e)])%list.
Proof.
  intros Hq Hne Hclient Hpage Hsize Hsearch.
  unfold get. rewrite Hq. simpl. rewrite Hne.
  unfold client_search. run.
  rewrite Hclient, Hpage, Hsize. simpl. rewrite Hsearch. simpl.
  by eexists.
Qed.

(** X19. The view checks neither the page nor the page size against a
    lower bound: once the client is built and both numbers read, the search
    is sent with offset [(page - 1) * min(page_size, 100)] and that size,
    also when they are zero or negative, and whatever the engine then
    answers. *)
Theorem bounds_are_forwarded_unchecked (GET : gmap string string) (w : world)
    (query : string) (page size : Z) :
  GET !! "q" = Some query →
  is_empty query = false →
  get_opensearch_client w = (Ok tt, w) →
  int_param GET "page" 1 w = (Ok page, w) →
  int_param GET "page_size" 20 w = (Ok size, w) →
  let body := build_search_body GET query page (Z.min size 100) in
  sent (exec (get GET) w) = (sent w ++ [ReqSearch "programs" body])%list ∧
  sb_from body = (page - 1) * Z.min size 100 ∧
  sb_size body = Z.min size 100.
Proof.
  intros Hq Hne Hclient Hpage Hsize body. subst body.
  split; [|done].
  unfold get. rewrite Hq. simpl. rewrite Hne.
  unfold client_search, floordiv. run.
  rewrite Hclient, Hpage, Hsize. simpl.
  destruct (run_search _ _ _) as [response|e]; simpl; [|done].
  destruct (Z.min size 100 =? 0); simpl; [done|].
  reshape_cases; done.
Qed.

(** X20. A 200 answer comes from a search that ran through: its total is
    the total the engine gave (0 when the engine gave none), it carries one
    record per hit, each with the same fifteen keys, and every hit had its
    [_source]. The page is the one asked for, the page size is the capped
    one, the number of pages is their ceiling quotient as Python's [//]
    gives it, [took] and [aggregations] are the engine's (0 and the empty
    dict when it gave none), and the query, the eight filter parameters and
    the two sort parameters are echoed as they came, the sort parameters
    with their defaults. *)
Theorem results_follow_hits (GET : gmap string string) (w w' : world)
    (d : page_data) (s : Z) :
  get GET w = (Ok {| data := PageBody d; status := s |}, w') →
  s = 200 ∧
  ∃ page size response,
    int_param GET "page" 1 w = (Ok page, w) ∧
    int_param GET "page_size" 20 w = (Ok size, w) ∧
    Z.min size 100 ≠ 0 ∧
    run_search (cluster w) "programs"
      (build_search_body GET (pd_query d) page (Z.min size 100)) = Ok response ∧
    GET !! "q" = Some (pd_query d) ∧
    pd_total d = response_total response ∧
    length (pd_results d) = length (response_hits response) ∧
    Forall (λ r : list (string * json), r.*1 = result_keys) (pd_results d) ∧
    Forall (λ h, is_Some (hit_source h)) (response_hits response) ∧
    pd_page d = page ∧
    pd_page_size d = Z.min size 100 ∧
    pd_total_pages d
    = (response_total response + Z.min size 100 - 1) `div` Z.min size 100 ∧
    pd_took d = default (JNum 0) (resp_took response) ∧
    pd_aggregations d = default (JDict []) (resp_aggregations response) ∧
    pd_filters_applied d
    = {| fa_category := GET !! "category";
         fa_language := GET !! "language";
         fa_media_type := GET !! "media_type";
         fa_duration_min := GET !! "duration_min";
         fa_duration_max := GET !! "duration_max";
         fa_publish_date_from := GET !! "publish_date_from";
         fa_publish_date_to := GET !! "publish_date_to";
         fa_tags := GET !! "tags";
         fa_sort_by := default "_score" (GET !! "sort_by");
         fa_sort_order := default "desc" (GET !! "sort_order") |}.
Proof.
  unfold get. destruct (GET !! "q") as [query|] eqn:Hq; simpl; [|done].
  destruct (is_empty query) eqn:Hne; [done|].
  unfold client_search, floordiv. run.
  destruct (get_opensearch_client_run w) as [-> | ->]; simpl; [|done].
  destruct (int_param_cases GET "page" 1 w) as [[page ->] | ->]; simpl; [|done].
  destruct (int_param_cases GET "page_size" 20 w) as [[size ->] | ->]; simpl; [|done].
  destruct (run_search _ _ _) as [response|e] eqn:Hsearch; simpl; [|done].
  destruct (Z.eqb_spec (Z.min size 100) 0) as [|Hnz]; simpl; [done|].
  reshape_cases; simpl; [|done].
  intros [= <- <- <-]. split; [done|].
  exists page, size, response. simpl. by split_and!.
Qed.

(** X21. One hit without [_source] fails the whole request: the search was
    sent and answered, but the view answers 500 with a [KeyError] and no
    result at all. *)
Theorem hit_without_source_fails_request (GET : gmap string string) (w : world)
    (query : string) (page size : Z) (response : search_response) (h : hit) :
  GET !! "q" = Some query →
  is_empty query = false →
  get_opensearch_client w = (Ok tt, w) →
  int_param GET "page" 1 w = (Ok page, w) →
  int_param GET "page_size" 20 w = (Ok size, w) →
  Z.min size 100 ≠ 0 →
  run_search (cluster w) "programs"
    (build_search_body GET query page (Z.min size 100)) = Ok response →
  h ∈ response_hits response →
  hit_source h = None →
  ∃ w',
    get GET w = (Ok {| data := ErrorBody "Search failed" (Some KeyError);
                       status := 500 |}, w') ∧
    sent w' = (sent w ++ [ReqSearch "programs"
                            (build_search_body GET query page (Z.min size 100))])%list.
Proof.
  intros Hq Hne Hclient Hpage Hsize Hnz Hsearch Hin Hnone.
  unfold get. rewrite Hq. simpl. rewrite Hne.
  unfold client_search, floordiv. run.
  rewrite Hclient, Hpage, Hsize. simpl. rewrite Hsearch. simpl.
  destruct (Z.eqb_spec (Z.min size 100) 0) as [|_]; [done|]. simpl.
  reshape_cases; simpl.
  - exfalso. rewrite Forall_forall in Hsrcs.
    destruct (Hsrcs h Hin) as [? ?]. congruence.
  - by eexists.
Qed.

(** X22. The filter list holds a range clause on the duration exactly when
    one of [duration_min] and [duration_max] has a value, with the lower
    bound set only by the first and the upper only by the second; the same
    for the publish date. It holds a tag clause exactly when [tags] has a
    value, with one entry per piece between commas, empty pieces included.
    There are never more than six clauses. *)
Theorem range_and_tag_filters (GET : gmap string string) :
  let filters := filter_queries GET in
  (∀ f lo hi, Range f lo hi ∈ filters ↔
     (f = "duration" ∧
      (truthy (GET !! "duration_min") || truthy (GET !! "duration_max"))%bool = true ∧
      lo = bound (GET !! "duration_min") ∧ hi = bound (GET !! "duration_max")) ∨
     (f = "publish_date" ∧
      (truthy (GET !! "publish_date_from") || truthy (GET !! "publish_date_to"))%bool = true ∧
      lo = bound (GET !! "publish_date_from") ∧ hi = bound (GET !! "publish_date_to"))) ∧
  (∀ f vs, Terms f vs ∈ filters ↔
     f = "metadata.tags" ∧
     ∃ s, GET !! "tags" = Some s ∧ s ≠ "" ∧ vs = strip <$> split "," s) ∧
  (∀ s, GET !! "tags" = Some s → s ≠ "" →
     ∃ vs, Terms "metadata.tags" vs ∈ filters ∧
           length vs = S (occurrences "," s)) ∧
  (length filters ≤ 6)%nat.
Proof.
  cbv zeta. unfold filter_queries. split_and!.
  - intros f lo hi.
    rewrite !elem_of_app, !range_in_term_filter, !range_in_range_filter,
      range_in_tags_filter. tauto.
  - intros f vs.
    rewrite !elem_of_app, !terms_in_term_filter, !terms_in_range_filter,
      terms_in_tags_filter. tauto.
  - intros s Hs Hne. exists (strip <$> split "," s). split.
    + rewrite !elem_of_app, terms_in_tags_filter. do 5 right.
      split; [done|]. by exists s.
    + rewrite length_fmap. apply split_aux_length.
  - rewrite !length_app.
    pose proof (filter_lengths "category" (GET !! "category")
                  (GET !! "duration_min") (GET !! "duration_max") (GET !! "tags")).
    pose proof (filter_lengths "language" (GET !! "language")
                  (GET !! "publish_date_from") (GET !! "publish_date_to") None).
    pose proof (filter_lengths "media_type" (GET !! "media_type") None None None).
    pose proof (filter_lengths "duration" None
                  (GET !! "duration_min") (GET !! "duration_max") None).
    pose proof (filter_lengths "publish_date" None
                  (GET !! "publish_date_from") (GET !! "publish_date_to") None).
    lia.
Qed.

End ViewExtras.

(** * From the publisher to the index *)

Section PublisherExtras.
Context `{P : Platform}.

Lemma program_payload_lookup instance key value :
  (key, value) ∈ program_payload instance →
  as_document (program_payload instance) !! key = Some value.
Proof.
  unfold program_payload. intros Hin.
  repeat (apply elem_of_cons in Hin as [[= -> ->] | Hin]; [reflexivity|]).
  by apply elem_of_nil in Hin.
Qed.

(** X23. A program saved while the producer works is put on the topic
    [programs.events] as one event that the consumer reads as an upsert,
    whether the program was created or updated: once the consumer has
    handled it and the engine has taken the document, a lookup of the
    program's id gives the document with the thirteen fields of the
    program, its id among them. *)
Theorem published_program_reaches_index
    (instance : Program) (created : bool) (w : world) :
  accepts (index_body_of (cluster w)) (as_document (program_payload instance)) = true →
  ∃ v m,
    sent_events (send_program_to_kafka (Producer None) instance created)
    = [("programs.events", v)] ∧
    as_message v = Some m ∧
    operation_of_message m = Some Upsert ∧
    stored (exec (process_message m) w) (p_id instance)
    = Some (as_document (program_payload instance)) ∧
    ∀ key value, (key, value) ∈ program_payload instance →
      as_document (program_payload instance) !! key = Some value.
Proof.
  intros Hacc. eexists _, _. split; [reflexivity|]. split; [reflexivity|].
  split; [by destruct created|]. split; [|apply program_payload_lookup].
  rewrite stored_after_message. unfold key_effect. simpl.
  rewrite decide_True by done.
  replace (operation_of _) with (Some Upsert) by (by destruct created).
  by rewrite Hacc.
Qed.

(** X24. A program deleted while the producer works is put on the topic as
    one event that the consumer reads as a delete of the program's id:
    once the consumer has handled it, and where the engine carries out the
    deletes of that id, a lookup of the id finds nothing; the documents of
    the other programs are as they were, whatever the engine did. *)
Theorem published_deletion_clears_index (instance : Program) (w : world) :
  deletes_carried_out (index_body_of (cluster w)) (p_id instance) →
  ∃ v m,
    sent_events (send_program_deletion_to_kafka (Producer None) instance)
    = [("programs.events", v)] ∧
    as_message v = Some m ∧
    operation_of_message m = Some Delete ∧
    stored (exec (process_message m) w) (p_id instance) = None ∧
    ∀ j, j ≠ p_id instance → stored (exec (process_message m) w) j = stored w j.
Proof.
  intros Hdel.
  eexists _, _. split; [reflexivity|]. split; [reflexivity|]. split; [done|].
  split.
  - rewrite stored_after_message. unfold key_effect. simpl.
    rewrite decide_True by done. unfold after_delete.
    destruct (stored w (p_id instance)) as [doc|]; [|done]. by rewrite Hdel.
  - intros j Hj. rewrite stored_after_message. unfold key_effect. simpl.
    rewrite decide_False; [done|]. congruence.
Qed.

End PublisherExtras.

(** * The further properties on the bench *)

Lemma upsert_visible_until_next_event_witness :
  last_applied 5 [Dict create_9_untitled; Dict unknown_event] = None ∧
  stored (P := bench)
    (exec (consume (P := bench)
             ([delete_message 5] ++
              Dict update_5_tea :: [Dict create_9_untitled; Dict unknown_event]))
       live_world) 5
  = Some tea.
Proof.
  split; [reflexivity|].
  apply (upsert_visible_until_next_event (P := bench)
           [delete_message 5] [Dict create_9_untitled; Dict unknown_event]
           update_5_tea 5 live_world); reflexivity.
Defined.

Lemma rejected_upsert_is_skipped_witness :
  accepts (Platform := bench) (index_body_of (P := bench) (cluster live_world))
    untitled = false ∧
  ∃ w', process_message (P := bench) (Dict create_9_untitled) live_world = (Ok tt, w') ∧
        cluster w' = cluster live_world.
Proof.
  split; [reflexivity|].
  destruct (rejected_upsert_is_skipped (P := bench) create_9_untitled live_world)
    as (w' & Hrun & Hcluster & _); [reflexivity|reflexivity|].
  exists w'. split; assumption.
Defined.

Lemma delete_touches_only_its_document_witness :
  stored (P := stuck_bench) live_world 5 = Some coffee ∧
  ∃ w', process_message (P := stuck_bench) (Dict delete_5) live_world = (Ok tt, w') ∧
        stored (P := stuck_bench) w' 5 = Some coffee ∧
        logged w' = [(INFO, ReceivedMessage (Dict delete_5));
                     (WARNING, DeleteFailed (Some 5) ConnectionError)].
Proof.
  split; [reflexivity|].
  destruct (delete_touches_only_its_document (P := stuck_bench)
              delete_5 5 coffee live_world)
    as (w' & Hrun & _ & _ & _ & _ & Hkept & _ & Hlog);
    [reflexivity|reflexivity|reflexivity|].
  exists w'. split_and!; assumption.
Defined.

Lemma other_events_leave_document_witness :
  stored (P := bench)
    (exec (consumer_loop (P := bench)
             [Poll [Dict create_9_untitled; delete_message 7; NotDict OfNull]
                (Broken ConnectionError)]) live_world) 5
  = Some coffee.
Proof.
  apply (other_events_leave_document (P := bench)
           [Poll [Dict create_9_untitled; delete_message 7; NotDict OfNull]
              (Broken ConnectionError)] 5 live_world).
  reflexivity.
Defined.


Lemma wait_returns_at_first_ready_witness :
  (wait_for_opensearch (P := bench) 60 5 up_at_fourth).1 = ClientReady ∧
  slept (wait_for_opensearch (P := bench) 60 5 up_at_fourth).2 = 15 ∧
  health_requests (wait_for_opensearch (P := bench) 60 5 up_at_fourth).2 = 4%nat.
Proof.
  apply (wait_returns_at_first_ready (P := bench) 60 5 up_at_fourth 3).
  - lia.
  - intros j Hj. destruct j as [|[|[|j]]]; [reflexivity..|lia].
  - reflexivity.
Defined.

Lemma run_consumer_exits_when_engine_never_ready_witness :
  ∃ steps,
    run_consumer (P := bench) always_red (Ok tt) [Poll sample_batch Idle] live_world
    = (Exit 1, steps, live_world) ∧
    slept steps = 295.
Proof.
  destruct (run_consumer_exits_when_engine_never_ready (P := bench)
              always_red (Ok tt) [Poll sample_batch Idle] live_world)
    as (steps & Hrun & Hslept & _).
  - intros j Hj. reflexivity.
  - exists steps. split; assumption.
Defined.

Lemma run_consumer_runs_schema_manager_before_consuming_witness :
  (∃ steps w',
     run_consumer (P := bench) up_at_fourth (Ok tt) [Poll sample_batch Idle] empty_world
     = (StillConsuming, steps, w') ∧
     is_Some (cluster w' !! INDEX_NAME (P := bench)) ∧
     slept steps = 30) ∧
  (∃ steps w',
     run_consumer (P := full_bench) up_at_fourth (Ok tt) [Poll sample_batch Idle]
       empty_world
     = (Exit 1, steps, w') ∧
     cluster w' = ∅ ∧
     logged w' = [(ERROR, ErrorCreatingIndex RequestError)] ∧
     slept steps = 15).
Proof.
  split.
  - destruct (run_consumer_runs_schema_manager_before_consuming (P := bench)
                up_at_fourth (Ok tt) [Poll sample_batch Idle] empty_world 3)
      as (steps & w' & _ & Hrun).
    + lia.
    + intros j Hj. destruct j as [|[|[|j]]]; [reflexivity..|lia].
    + reflexivity.
    + destruct (create_index_if_not_exists (P := bench) empty_world)
        as [[[]|e] w1] eqn:Hc; [|vm_compute in Hc; discriminate Hc].
      destruct Hrun as (Hrun & _ & Hindex & Hslept).
      exists steps, w'. split_and!; assumption.
  - destruct (run_consumer_runs_schema_manager_before_consuming (P := full_bench)
                up_at_fourth (Ok tt) [Poll sample_batch Idle] empty_world 3)
      as (steps & w' & _ & Hrun).
    + lia.
    + intros j Hj. destruct j as [|[|[|j]]]; [reflexivity..|lia].
    + reflexivity.
    + destruct (create_index_if_not_exists (P := full_bench) empty_world)
        as [[[]|e] w1] eqn:Hc; [vm_compute in Hc; discriminate Hc|].
      destruct Hrun as (Hrun & Hw & Hcluster & Hslept & _).
      assert (e = RequestError ∧ logged w1 = [(ERROR, ErrorCreatingIndex RequestError)])
        as [-> Hlog] by (vm_compute in Hc; by injection Hc as <- <-).
      exists steps, w'. subst w'. split_and!; assumption.
Defined.

Lemma command_mapping_wins_witness :
  COMMAND_INDEX_NAME (P := bench) = INDEX_NAME (P := bench) ∧
  cluster (exec (create_index_if_not_exists (P := bench))
             (exec (Command_handle (P := bench) (FileJson (JDict []))) live_world))
  = <[INDEX_NAME (P := bench) := new_index (JDict [])]> (cluster live_world).
Proof.
  split; [reflexivity|].
  destruct (command_mapping_wins (P := bench) (JDict []) live_world)
    as (_ & Hafter & _); [reflexivity|reflexivity|].
  exact Hafter.
Defined.

Lemma backend_failure_is_reported_witness :
  ∃ w',
    get (P := down_bench) paged_request empty_world
    = (Ok {| data := ErrorBody "Search failed" (Some ConnectionError);
             status := 500 |}, w') ∧
    logged w' = [(ERROR, SearchError ConnectionError)].
Proof.
  destruct (backend_failure_is_reported (P := down_bench) paged_request empty_world
              "coffee" 2 10 ConnectionError)
    as (w' & Hget & _ & Hlog); try reflexivity.
  exists w'. split; assumption.
Defined.

Lemma bounds_are_forwarded_unchecked_witness :
  sent (exec (get (P := bench) unchecked_request) empty_world)
  = [ReqSearch "programs" (build_search_body unchecked_request "coffee" 0 (-5))] ∧
  sb_from (build_search_body unchecked_request "coffee" 0 (-5)) = 5 ∧
  sb_size (build_search_body unchecked_request "coffee" 0 (-5)) = -5.
Proof.
  apply (bounds_are_forwarded_unchecked (P := bench) unchecked_request empty_world
           "coffee" 0 (-5)); reflexivity.
Defined.

Lemma results_follow_hits_witness :
  ∃ d w',
    get (P := two_hits_bench) paged_request empty_world
    = (Ok {| data := PageBody d; status := 200 |}, w') ∧
    length (pd_results d) = 2%nat ∧
    pd_total d = 2 ∧
    pd_filters_applied d
    = FiltersApplied None None None None None None None None "_score" "desc".
Proof.
  destruct (get (P := two_hits_bench) paged_request empty_world)
    as [[[[msg details|d] s]|e] w'] eqn:Hget;
    try (exfalso; vm_compute in Hget; discriminate Hget).
  destruct (results_follow_hits (P := two_hits_bench) paged_request empty_world w' d s Hget)
    as (-> & page & size & response & _ & _ & _ & Hsearch & _ & Htotal & Hlen
        & _ & _ & _ & _ & _ & _ & _ & Hecho).
  injection Hsearch as <-.
  exists d, w'. split_and!; [reflexivity|exact Hlen|exact Htotal|exact Hecho].
Defined.

Lemma hit_without_source_fails_request_witness :
  ∃ w',
    get (P := sourceless_bench) paged_request empty_world
    = (Ok {| data := ErrorBody "Search failed" (Some KeyError); status := 500 |}, w').
Proof.
  destruct (hit_without_source_fails_request (P := sourceless_bench)
              paged_request empty_world "coffee" 2 10 sourceless_response
              (Hit None None None))
    as (w' & Hget & _); try reflexivity.
  - discriminate.
  - right. left.
  - exists w'. exact Hget.
Defined.

Lemma published_program_reaches_index_witness :
  ∃ v m,
    sent_events (send_program_to_kafka (Producer None) coffee_program false)
    = [("programs.events", v)] ∧
    as_message v = Some m ∧
    stored (P := bench) (exec (process_message (P := bench) m) empty_world) 6
    = Some (as_document (program_payload coffee_program)).
Proof.
  destruct (published_program_reaches_index (P := bench) coffee_program false empty_world)
    as (v & m & Hsent & Hread & _ & Hstored & _); [reflexivity|].
  exists v, m. split_and!; assumption.
Defined.

Lemma published_deletion_clears_index_witness :
  deletes_carried_out (P := bench) (index_body_of (P := bench) (cluster live_world)) 5 ∧
  stored (P := bench) live_world 5 = Some coffee ∧
  ∃ v m,
    sent_events (send_program_deletion_to_kafka (Producer None) deleted_program)
    = [("programs.events", v)] ∧
    as_message v = Some m ∧
    stored (P := bench) (exec (process_message (P := bench) m) live_world) 5 = None.
Proof.
  assert (deletes_carried_out (P := bench)
            (index_body_of (P := bench) (cluster live_world)) 5) as Hdel.
  { intros doc. reflexivity. }
  split; [exact Hdel|]. split; [reflexivity|].
  destruct (published_deletion_clears_index (P := bench) deleted_program live_world Hdel)
    as (v & m & Hsent & Hread & _ & Hgone & _).
  exists v, m. split_and!; assumption.
Defined.

(** Further runs, evaluated. *)
Example wide_spaces_are_stripped :
  filter_queries spaced_request = [Terms "metadata.tags" ["history"; "Ye men"]].
Proof. vm_compute. reflexivity. Qed.

Example failed_delete_is_skipped :
  let w := exec (consume (P := stuck_bench)
                   [upsert_message tag_upsert 5 coffee; delete_message 5;
                    upsert_message tag_create 6 tea]) empty_world in
  stored (P := stuck_bench) w 5 = Some coffee ∧
  stored (P := stuck_bench) w 6 = Some tea ∧
  logged w = [(INFO, ReceivedMessage (upsert_message tag_upsert 5 coffee));
              (INFO, IndexedProgram (Some 5) (JStr "Coffee journey"));
              (INFO, ReceivedMessage (delete_message 5));
              (WARNING, DeleteFailed (Some 5) ConnectionError);
              (INFO, ReceivedMessage (upsert_message tag_create 6 tea));
              (INFO, IndexedProgram (Some 6) (JStr "Tea road"))].
Proof. split_and!; vm_compute; reflexivity. Qed.

Example failed_creation_ends_the_command_without_index :
  Command_handle (P := full_bench) (FileJson (JDict [])) live_world
  = (Raise RequestError,
     {| cluster := ∅;
        sent := [ReqExists "programs"; ReqDeleteIndex "programs";
                 ReqCreate "programs" (JDict [])];
        logged := [];
        console := [Stdout_DeletingAndRecreating "programs"];
        slept_ms := 0 |}).
Proof. vm_compute. reflexivity. Qed.

Example tags_are_split_and_stripped :
  filter_queries ranged_request
  = [Range "duration" (Some "0:10:00") None;
     Terms "metadata.tags" ["history"; ""; "Yemen"]].
Proof. vm_compute. reflexivity. Qed.

Example engine_up_at_fourth_attempt :
  (wait_for_opensearch (P := bench) 60 5 up_at_fourth).2
  = [BootLog INFO (WaitingForOpenSearch "opensearch:9200");
     BootHealth; BootLog INFO (OpenSearchNotReady 1 60 ConnectionError);
     BootLog INFO (RetryingIn 5); BootSleep 5;
     BootHealth; BootLog INFO (OpenSearchStarting "red");
     BootLog INFO (RetryingIn 5); BootSleep 5;
     BootHealth; BootLog INFO (OpenSearchNotReady 3 60 KeyError);
     BootLog INFO (RetryingIn 5); BootSleep 5;
     BootHealth; BootLog INFO (OpenSearchReady "yellow")].
Proof. vm_compute. reflexivity. Qed.
